(** * ConvoCode: the streaming chat loop and its three front ends

    A shallow embedding of
    - [src/cc_cli.mjs]       (terminal front end, function [chat]),
    - the output-channel extension (function [activate], one input box
      per question, answers appended to an output channel),
    - [src/src/extension.ts] (webview panel: the extension host's
      [onDidReceiveMessage] handler and the script of the page returned
      by [getWebviewContent]).

    [src/cc_cli.mjs] also carries an earlier version of the panel
    extension: its loop and the [appendResponse] case of its page are the
    ones modelled here, and it has no [try]/[catch] and no [error] case.

    The page is modelled with the tree of nodes under [#chat], the two
    selectors of its script and the browser's HTML parser as a
    parameter, since the script splices markup it does not control.

    Texts are JavaScript strings, that is sequences of UTF-16 code units.
    The streamed answer of [ollama.chat] is a finite list of chunks that
    ends either by exhaustion or by a raised error. Every front end is
    modelled as a function from its input to the trace of effects it
    performs, in program order, together with the way it leaves. *)

From Stdlib Require Import List Arith NArith Bool String Ascii Lia.
Import ListNotations.

(** ** JavaScript strings *)

Module JS.

(** A string is the list of its UTF-16 code units. *)
Definition str : Type := list N.

(** An ASCII literal of the source. *)
Definition lit (s : string) : str :=
  map N_of_ascii (list_ascii_of_string s).

(** [!!s] for a string [s]: only the empty string is falsy. *)
Definition truthy_str (s : str) : bool :=
  match s with
  | [] => false
  | _ :: _ => true
  end.

(** [!!v] for a property that holds a string or is [undefined]. *)
Definition truthy (v : option str) : bool :=
  match v with
  | Some s => truthy_str s
  | None => false
  end.

(** The string a truthy property holds (only read under [truthy]). *)
Definition text_of (v : option str) : str :=
  match v with
  | Some s => s
  | None => []
  end.

(** [a || b] on strings. *)
Definition or_else (a : option str) (b : str) : str :=
  if truthy a then text_of a else b.

(** ECMAScript WhiteSpace and LineTerminator code points, the ones
    [String.prototype.trim] strips. All of them are in the BMP. *)
Definition is_white_space (c : N) : bool :=
  ((c =? 0x9) || (c =? 0xA) || (c =? 0xB) || (c =? 0xC) || (c =? 0xD)
   || (c =? 0x20) || (c =? 0xA0) || (c =? 0x1680)
   || ((0x2000 <=? c) && (c <=? 0x200A))
   || (c =? 0x2028) || (c =? 0x2029) || (c =? 0x202F) || (c =? 0x205F)
   || (c =? 0x3000) || (c =? 0xFEFF))%N.

Fixpoint trimStart (s : str) : str :=
  match s with
  | [] => []
  | c :: s' => if is_white_space c then trimStart s' else s
  end.

Fixpoint trimEnd (s : str) : str :=
  match s with
  | [] => []
  | c :: s' =>
      match trimEnd s' with
      | [] => if is_white_space c then [] else [c]
      | t => c :: t
      end
  end.

(** [s.trim()] *)
Definition trim (s : str) : str := trimEnd (trimStart s).

End JS.

Import JS.

(** Equality of two strings, unit by unit. *)
Fixpoint str_eqb (a b : str) : bool :=
  match a, b with
  | [], [] => true
  | x :: a', y :: b' => N.eqb x y && str_eqb a' b'
  | _, _ => false
  end.

(** ** The chunk source *)

(** [chunk.message]: the two fields the loops read. *)
Record Chunk : Type := mkChunk {
  thinking : option str;   (* chunk.message.thinking *)
  content : option str     (* chunk.message.content *)
}.

(** How the async iteration ends. *)
Inductive StreamEnd : Type :=
| Exhausted
| Raised (message : str).

(** What [await ollama.chat({..., stream: true, think: true})] gives. *)
Inductive Response : Type :=
| Rejected (message : str)
| Stream (chunks : list Chunk) (fin : StreamEnd).

Record Request : Type := mkRequest {
  req_model : str;
  req_content : str        (* messages: [{ role: 'user', content }] *)
}.

(** How a handler leaves: by returning, or with the error escaping it. *)
Inductive Outcome : Type :=
| Returned
| Threw (message : str).

(** ** Webview panel, extension host side (src/src/extension.ts) *)

(** Messages posted to the webview with [panel.webview.postMessage]. *)
Inductive HostMessage : Type :=
| cmd_thinking
| cmd_updateThinking (text : str)
| cmd_startResponse
| cmd_appendResponse (text : str)
| cmd_error (text : str).

(** Messages the page posts to the host. *)
Inductive ViewMessage : Type :=
| cmd_send (text : str) (model : option str)
| cmd_other.

Module Panel.

Inductive Effect : Type :=
| postMessage (m : HostMessage)
| ollama_chat (r : Request).

(** The body of [for await (const chunk of stream)], lines 43-52:
    the new value of [started] and the messages posted. *)
Definition body (started : bool) (chunk : Chunk) : bool * list HostMessage :=
  let posted1 :=
    if truthy (thinking chunk) && negb started
    then [cmd_updateThinking (text_of (thinking chunk))]
    else [] in
  if truthy (content chunk) then
    let posted2 := if negb started then [cmd_startResponse] else [] in
    (true, posted1 ++ posted2 ++ [cmd_appendResponse (text_of (content chunk))])
  else (started, posted1).

Fixpoint for_await (started : bool) (chunks : list Chunk)
  : bool * list HostMessage :=
  match chunks with
  | [] => (started, [])
  | chunk :: rest =>
      let (started', posted) := body started chunk in
      let (final, later) := for_await started' rest in
      (final, posted ++ later)
  end.

(** Lines 41-56: [let started = false], the loop, and the [catch]. *)
Definition stream_block (r : Response) : list HostMessage :=
  match r with
  | Rejected message => [cmd_error message]
  | Stream chunks fin =>
      snd (for_await false chunks) ++
      match fin with
      | Exhausted => []
      | Raised message => [cmd_error message]
      end
  end.

(** [panel.webview.onDidReceiveMessage(async (message) => ...)]. *)
Definition onDidReceiveMessage (defaultModel : str)
    (ollama : Request -> Response) (message : ViewMessage)
  : list Effect * Outcome :=
  match message with
  | cmd_send text model =>
      let model := or_else model defaultModel in
      let request := mkRequest model text in
      ([postMessage cmd_thinking; ollama_chat request]
         ++ map postMessage (stream_block (ollama request)),
       Returned)
  | cmd_other => ([], Returned)
  end.

(** The messages among the effects, in order. *)
Definition posted (es : list Effect) : list HostMessage :=
  flat_map (fun e => match e with postMessage m => [m] | _ => [] end) es.

End Panel.

(** ** Terminal front end (src/cc_cli.mjs, function [chat]) *)

Module Cli.

Inductive Color : Type := blueBright | yellow | gray | green | white | blue.

(** What is handed to [console.log] and [process.stdout.write]. *)
Inductive Styled : Type :=
| chalk (c : Color) (s : str)
| boxen (t : Styled)          (* padding 1, yellow border, centred *)
| plain (s : str).

Inductive Effect : Type :=
| console_log (t : Styled)
| stdout_write (t : Styled)
| rl_prompt
| ollama_chat (r : Request).

(** ['\nResponse:\n========'] *)
Definition separator : str :=
  10%N :: lit "Response:" ++ 10%N :: lit "========".

(** The body of the loop, lines 47-58. *)
Definition body (started : bool) (chunk : Chunk) : bool * list Effect :=
  let written1 :=
    if truthy (thinking chunk) && negb started
    then [stdout_write (chalk gray (text_of (thinking chunk)))]
    else [] in
  if truthy (content chunk) then
    let written2 :=
      if negb started then [console_log (chalk green separator)] else [] in
    (true,
     written1 ++ written2
       ++ [stdout_write (chalk white (text_of (content chunk)))])
  else (started, written1).

Fixpoint for_await (started : bool) (chunks : list Chunk)
  : bool * list Effect :=
  match chunks with
  | [] => (started, [])
  | chunk :: rest =>
      let (started', written) := body started chunk in
      let (final, later) := for_await started' rest in
      (final, written ++ later)
  end.

(** Lines 45-62: the loop, then [console.log('\n')] and the prompt.
    Nothing catches an error of the stream. *)
Definition stream_block (chunks : list Chunk) (fin : StreamEnd)
  : list Effect * Outcome :=
  let written := snd (for_await false chunks) in
  match fin with
  | Exhausted => (written ++ [console_log (plain [10%N]); rl_prompt], Returned)
  | Raised message => (written, Threw message)
  end.

(** [rl.on('line', async (line) => ...)]. *)
Definition on_line (ollama : Request -> Response) (line : str)
  : list Effect * Outcome :=
  let userMessage := trim line in
  if negb (truthy_str userMessage) then ([rl_prompt], Returned)
  else
    let request := mkRequest (lit "qwen3:0.6b") userMessage in
    let before :=
      [console_log (boxen (chalk yellow (lit "Thinking...")));
       ollama_chat request] in
    match ollama request with
    | Rejected message => (before, Threw message)
    | Stream chunks fin =>
        let (written, outcome) := stream_block chunks fin in
        (before ++ written, outcome)
    end.

End Cli.

(** ** Output-channel front end (command [ollamaChat.start]) *)

Module Channel.

Inductive Effect : Type :=
| showInputBox
| output_clear
| output_appendLine (s : str)
| output_append (s : str)
| output_show
| ollama_chat (r : Request).

(** The body of the loop over [responseStream]. *)
Definition body (started : bool) (chunk : Chunk) : bool * list Effect :=
  let written1 :=
    if truthy (thinking chunk) && negb started
    then [output_append (text_of (thinking chunk))]
    else [] in
  if truthy (content chunk) then
    let written2 :=
      if negb started
      then [output_appendLine [];
            output_appendLine (lit "Response:");
            output_appendLine (lit "========")]
      else [] in
    (true, written1 ++ written2 ++ [output_append (text_of (content chunk))])
  else (started, written1).

Fixpoint for_await (started : bool) (chunks : list Chunk)
  : bool * list Effect :=
  match chunks with
  | [] => (started, [])
  | chunk :: rest =>
      let (started', written) := body started chunk in
      let (final, later) := for_await started' rest in
      (final, written ++ later)
  end.

(** One round of [while (true)] for an input box that was answered
    with [userInput] (any string, the empty one included). *)
Definition round (ollama : Request -> Response) (userInput : str)
  : list Effect * Outcome :=
  let request := mkRequest (lit "qwen3:0.6b") userInput in
  let before :=
    [output_clear; output_appendLine (lit "Thinking..."); output_show;
     ollama_chat request] in
  match ollama request with
  | Rejected message => (before, Threw message)
  | Stream chunks fin =>
      let written := snd (for_await false chunks) in
      (before ++ written,
       match fin with Exhausted => Returned | Raised message => Threw message end)
  end.

(** The command: the boxes are answered with [inputs], in order, and the
    next one is cancelled ([undefined], which leaves the loop). *)
Fixpoint start (ollama : Request -> Response) (inputs : list str)
  : list Effect * Outcome :=
  match inputs with
  | [] => ([showInputBox], Returned)
  | userInput :: later =>
      match round ollama userInput with
      | (written, Returned) =>
          let (rest, outcome) := start ollama later in
          (showInputBox :: written ++ rest, outcome)
      | (written, Threw message) => (showInputBox :: written, Threw message)
      end
  end.

End Channel.

(** ** Webview panel, page side (script of [getWebviewContent]) *)

Module View.

(** The nodes under [#chat] as the browser holds them: a node is
    followed by its next sibling, an element also has its children. Of an
    element the script reads the tag, the classes and the [data-raw]
    attribute; other attributes are left out. *)
Inductive Nodes : Type :=
| no_nodes
| text_node (data : str) (next : Nodes)
| element (tagName : str) (classList : list str) (data_raw : option str)
          (children : Nodes) (next : Nodes).

(** The siblings [a] followed by the siblings [b]. *)
Fixpoint append (a b : Nodes) : Nodes :=
  match a with
  | no_nodes => b
  | text_node data next => text_node data (append next b)
  | element tagName classList data_raw children next =>
      element tagName classList data_raw children (append next b)
  end.

Definition has_class (name : str) (classList : list str) : bool :=
  existsb (str_eqb name) classList.

(** Some element among the siblings has the tag. *)
Fixpoint has_tag (tagName : str) (siblings : Nodes) : bool :=
  match siblings with
  | no_nodes => false
  | text_node _ next => has_tag tagName next
  | element t _ _ _ next => str_eqb t tagName || has_tag tagName next
  end.

(** Some element among the nodes or below them has the class. *)
Fixpoint carries_class (name : str) (nodes : Nodes) : bool :=
  match nodes with
  | no_nodes => false
  | text_node _ next => carries_class name next
  | element _ classList _ children next =>
      has_class name classList || carries_class name children
        || carries_class name next
  end.

(** [:last-of-type] for an element with the siblings [next] after it. *)
Definition last_of_type (tagName : str) (next : Nodes) : bool :=
  negb (has_tag tagName next).

(** The two selectors of the script. [selects inside classList last]
    says whether an element is selected, [enters] what [inside] is for
    its children; [inside] tells that an ancestor fits the left part of
    a descendant selector, [last] that the element is [:last-of-type]. *)
Record Selector : Type := mkSelector {
  selects : bool -> list str -> bool -> bool;
  enters : bool -> list str -> bool -> bool
}.

(** ['.thinking:last-of-type'] *)
Definition thinking_selector : Selector :=
  mkSelector
    (fun _ classList last => has_class (lit "thinking") classList && last)
             (fun inside _ _ => inside).

(** ['.assistant-message:last-of-type .response-content'] *)
Definition response_selector : Selector :=
  mkSelector
    (fun inside classList _ =>
       has_class (lit "response-content") classList && inside)
    (fun inside classList last =>
       inside || (has_class (lit "assistant-message") classList && last)).

(** [chatEl.querySelector(...)]: the first selected element among the
    descendants, in document order; its tag, [data-raw] and children. *)
Fixpoint querySelector (s : Selector) (inside : bool) (nodes : Nodes)
  : option (str * option str * Nodes) :=
  match nodes with
  | no_nodes => None
  | text_node _ next => querySelector s inside next
  | element tagName classList data_raw children next =>
      let last := last_of_type tagName next in
      if selects s inside classList last
      then Some (tagName, data_raw, children)
      else
        match querySelector s (enters s inside classList last) children with
        | Some found => Some found
        | None => querySelector s inside next
        end
  end.

(** The nodes after the element [querySelector] finds has been given the
    [data-raw] and the children that [change] computes from its tag and
    its present ones; [None] when nothing is selected. *)
Fixpoint update_selected (s : Selector)
    (change : str -> option str -> Nodes -> option str * Nodes)
    (inside : bool) (nodes : Nodes) : option Nodes :=
  match nodes with
  | no_nodes => None
  | text_node data next =>
      option_map (text_node data) (update_selected s change inside next)
  | element tagName classList data_raw children next =>
      let last := last_of_type tagName next in
      if selects s inside classList last
      then
        let (data_raw', children') := change tagName data_raw children in
        Some (element tagName classList data_raw' children' next)
      else
        match update_selected s change (enters s inside classList last)
                              children with
        | Some children' =>
            Some (element tagName classList data_raw children' next)
        | None =>
            option_map (element tagName classList data_raw children)
                       (update_selected s change inside next)
        end
  end.

(** [el.textContent = text]: one text node, none for the empty string. *)
Definition text_content (text : str) : Nodes :=
  match text with
  | [] => no_nodes
  | _ => text_node text no_nodes
  end.

Definition quote : str := [34%N].

(** The markup of the [Thinking...] line: a [div] of class [thinking]
    with that text. *)
Definition thinking_html : str :=
  lit "<div class=" ++ quote ++ lit "thinking" ++ quote
    ++ lit ">Thinking...</div>".

(** The markup of a response: a [div] of class [assistant-message] with
    [<strong>Response:</strong>], a space and an empty [span] of class
    [response-content] whose [data-raw] is the empty string. *)
Definition response_html : str :=
  lit "<div class=" ++ quote ++ lit "assistant-message" ++ quote
    ++ lit "><strong>Response:</strong> <span class=" ++ quote
    ++ lit "response-content" ++ quote ++ lit " data-raw=" ++ quote ++ quote
    ++ lit "></span></div>".

(** The markup of a user message: a [div] of class [user-message] with
    [<strong>You:</strong>], a space and [html] spliced in. *)
Definition user_html (html : str) : str :=
  lit "<div class=" ++ quote ++ lit "user-message" ++ quote
    ++ lit "><strong>You:</strong> " ++ html ++ lit "</div>".

(** The markup of an error: a [div] of classes [assistant-message] and
    [error] with [<strong>Error:</strong>], a space and [text] spliced
    in. *)
Definition error_html (text : str) : str :=
  lit "<div class=" ++ quote ++ lit "assistant-message error" ++ quote
    ++ lit "><strong>Error:</strong> " ++ text ++ lit "</div>".

Record Page : Type := mkPage {
  chat : Nodes;           (* the children of chatEl *)
  input_value : str;      (* inputEl.value *)
  model_value : str       (* modelEl.value *)
}.

Section Browser.

(** [marked.parse], the markdown library loaded by the page. *)
Variable marked_parse : str -> str.

(** The browser's HTML fragment parser, as [insertAdjacentHTML] and the
    [innerHTML] setter use it: the tag of the context element and the
    markup give the nodes. All the markup the script inserts goes
    through it, the rendered markdown and the text of an error as they
    are. *)
Variable parse_fragment : str -> str -> Nodes.

(** [chatEl.insertAdjacentHTML('beforeend', html)] *)
Definition insert_beforeend (children : Nodes) (html : str) : Nodes :=
  append children (parse_fragment (lit "div") html).

(** The click listener of [#send]: the new page and what is posted. *)
Definition click (p : Page) : Page * list ViewMessage :=
  let text := trim (input_value p) in
  if negb (truthy_str text) then (p, [])
  else
    let model := model_value p in
    (mkPage (insert_beforeend (chat p) (user_html (marked_parse text)))
            [] (model_value p),
     [cmd_send text (Some model)]).

(** [thinkingEl.textContent = msg.text] *)
Definition set_thinking (text : str)
  : str -> option str -> Nodes -> option str * Nodes :=
  fun _ data_raw _ => (data_raw, text_content text).

(** [raw = (getAttribute('data-raw') || '') + msg.text], then
    [setAttribute('data-raw', raw)] and [innerHTML = marked.parse(raw)]. *)
Definition append_raw (text : str)
  : str -> option str -> Nodes -> option str * Nodes :=
  fun tagName data_raw _ =>
    let raw := or_else data_raw [] ++ text in
    (Some raw, parse_fragment tagName (marked_parse raw)).

(** [if (el) ...]: the nodes are left alone when nothing is selected. *)
Definition when_found (updated : option Nodes) (children : Nodes) : Nodes :=
  match updated with
  | Some children' => children'
  | None => children
  end.

(** The listener of [window]'s ['message'] event. *)
Definition on_message (p : Page) (msg : HostMessage) : Page :=
  let children := chat p in
  let children' :=
    match msg with
    | cmd_thinking => insert_beforeend children thinking_html
    | cmd_updateThinking text =>
        when_found
          (update_selected thinking_selector (set_thinking text) false children)
          children
    | cmd_startResponse => insert_beforeend children response_html
    | cmd_appendResponse text =>
        when_found
          (update_selected response_selector (append_raw text) false children)
          children
    | cmd_error text => insert_beforeend children (error_html text)
    end in
  mkPage children' (input_value p) (model_value p).

Definition deliver (p : Page) (msgs : list HostMessage) : Page :=
  fold_left on_message msgs p.

(** A whole turn of the panel: the click, the host's handler for what
    the page posted, and the page's handling of the host's messages. *)
Definition submit (defaultModel : str) (ollama : Request -> Response)
    (p : Page) : Page * list Panel.Effect :=
  let (p1, sent) := click p in
  let effects :=
    flat_map (fun m => fst (Panel.onDidReceiveMessage defaultModel ollama m))
             sent in
  (deliver p1 (Panel.posted effects), effects).

End Browser.

(** What a browser builds for [thinking_html]. *)
Definition thinking_line : Nodes :=
  element (lit "div") [lit "thinking"] None
          (text_node (lit "Thinking...") no_nodes) no_nodes.

(** What a browser builds for [response_html]. *)
Definition response_block : Nodes :=
  element (lit "div") [lit "assistant-message"] None
    (element (lit "strong") [] None (text_node (lit "Response:") no_nodes)
       (text_node (lit " ")
          (element (lit "span") [lit "response-content"] (Some [])
                   no_nodes no_nodes)))
    no_nodes.

(** What ['.assistant-message:last-of-type .response-content'] selects
    on the page: the tag, the [data-raw] and the children of the span. *)
Definition response_content (p : Page) : option (str * option str * Nodes) :=
  querySelector response_selector false (chat p).

End View.

(** ** The loop the three front ends share

    The three loops have the same shape and differ only in what they do
    at three places: for reasoning text, for the first answer, and for
    answer text. [Agg] is that shape over abstract actions; a [Sink]
    says what a front end does for each of them. *)

Module Agg.

Inductive Step : Type :=
| Think (text : str)     (* chunk.message.thinking handed on *)
| Start                  (* what runs under [if (!started)] *)
| Answer (text : str).   (* chunk.message.content handed on *)

Definition body (started : bool) (chunk : Chunk) : bool * list Step :=
  let done1 :=
    if truthy (thinking chunk) && negb started
    then [Think (text_of (thinking chunk))]
    else [] in
  if truthy (content chunk) then
    let done2 := if negb started then [Start] else [] in
    (true, done1 ++ done2 ++ [Answer (text_of (content chunk))])
  else (started, done1).

Fixpoint for_await (started : bool) (chunks : list Chunk)
  : bool * list Step :=
  match chunks with
  | [] => (started, [])
  | chunk :: rest =>
      let (started', done) := body started chunk in
      let (final, later) := for_await started' rest in
      (final, done ++ later)
  end.

Record Sink (E : Type) : Type := mkSink {
  on_think : str -> list E;
  on_start : list E;
  on_answer : str -> list E
}.

Arguments mkSink {E} _ _ _.
Arguments on_think {E} _ _.
Arguments on_start {E} _.
Arguments on_answer {E} _ _.

Definition render {E : Type} (k : Sink E) (s : Step) : list E :=
  match s with
  | Think text => on_think k text
  | Start => on_start k
  | Answer text => on_answer k text
  end.

Definition panel : Sink HostMessage :=
  mkSink (fun text => [cmd_updateThinking text])
         [cmd_startResponse]
         (fun text => [cmd_appendResponse text]).

Definition cli : Sink Cli.Effect :=
  mkSink (fun text => [Cli.stdout_write (Cli.chalk Cli.gray text)])
         [Cli.console_log (Cli.chalk Cli.green Cli.separator)]
         (fun text => [Cli.stdout_write (Cli.chalk Cli.white text)]).

Definition channel : Sink Channel.Effect :=
  mkSink (fun text => [Channel.output_append text])
         [Channel.output_appendLine [];
          Channel.output_appendLine (lit "Response:");
          Channel.output_appendLine (lit "========")]
         (fun text => [Channel.output_append text]).

(** *** Views of a chunk list *)

Definition has_answer (chunk : Chunk) : bool := truthy (content chunk).
Definition has_thinking (chunk : Chunk) : bool := truthy (thinking chunk).

(** A chunk with neither field populated. *)
Definition blank (chunk : Chunk) : bool :=
  negb (has_thinking chunk) && negb (has_answer chunk).

(** The non-empty answer texts, in arrival order. *)
Definition answers (chunks : list Chunk) : list str :=
  map (fun c => text_of (content c)) (filter has_answer chunks).

(** All the answer text, in arrival order. *)
Definition answer_text (chunks : list Chunk) : str :=
  List.concat (map (fun c => text_of (content c)) chunks).

(** The chunks up to and including the first one with an answer. *)
Fixpoint until_answer (chunks : list Chunk) : list Chunk :=
  match chunks with
  | [] => []
  | c :: rest => if has_answer c then [c] else c :: until_answer rest
  end.

(** The non-empty reasoning texts, in arrival order. *)
Definition thoughts (chunks : list Chunk) : list str :=
  map (fun c => text_of (thinking c)) (filter has_thinking chunks).

(** *** The loop as a transition relation

    A configuration is the flag, the chunks still to come and what has
    been done so far. One rule per path through the loop body. *)

Definition Config : Type := (bool * list Chunk * list Step)%type.

Inductive step : Config -> Config -> Prop :=
| step_skip : forall started c rest out,
    truthy (thinking c) && negb started = false ->
    truthy (content c) = false ->
    step (started, c :: rest, out) (started, rest, out)
| step_think : forall started c rest out,
    truthy (thinking c) && negb started = true ->
    truthy (content c) = false ->
    step (started, c :: rest, out)
         (started, rest, out ++ [Think (text_of (thinking c))])
| step_more : forall c rest out,
    truthy (content c) = true ->
    step (true, c :: rest, out)
         (true, rest, out ++ [Answer (text_of (content c))])
| step_first : forall c rest out,
    truthy (thinking c) = false ->
    truthy (content c) = true ->
    step (false, c :: rest, out)
         (true, rest, out ++ [Start; Answer (text_of (content c))])
| step_think_first : forall c rest out,
    truthy (thinking c) = true ->
    truthy (content c) = true ->
    step (false, c :: rest, out)
         (true, rest,
          out ++ [Think (text_of (thinking c)); Start;
                  Answer (text_of (content c))]).

(** Running to the exhaustion of the chunks. *)
Inductive runs : Config -> list Step -> Prop :=
| runs_done : forall started out, runs (started, [], out) out
| runs_step : forall cfg cfg' out,
    step cfg cfg' -> runs cfg' out -> runs cfg out.

End Agg.

(** ** The vocabulary of the written specification *)

Module SpecSide.

(** The render events the specification speaks of. *)
Inductive RenderEvent : Type :=
| ThinkingStarted
| ThinkingUpdated (text : str)
| ResponseStarted
| ResponseUpdated (text : str)
| TurnFailed (message : str)
| TurnCompleted.

(** The panel's message commands read as render events: [thinking],
    [updateThinking], [startResponse], [appendResponse], [error]. No
    command stands for [TurnCompleted]. *)
Definition event_of_message (m : HostMessage) : RenderEvent :=
  match m with
  | cmd_thinking => ThinkingStarted
  | cmd_updateThinking text => ThinkingUpdated text
  | cmd_startResponse => ResponseStarted
  | cmd_appendResponse text => ResponseUpdated text
  | cmd_error message => TurnFailed message
  end.

End SpecSide.

(** ** Recognisers used in the statements *)

Definition is_startResponse (m : HostMessage) : bool :=
  match m with cmd_startResponse => true | _ => false end.

Definition is_appendResponse (m : HostMessage) : bool :=
  match m with cmd_appendResponse _ => true | _ => false end.

Definition is_updateThinking (m : HostMessage) : bool :=
  match m with cmd_updateThinking _ => true | _ => false end.

Definition is_error (m : HostMessage) : bool :=
  match m with cmd_error _ => true | _ => false end.

(** [console.log(chalk.green('\nResponse:\n========'))] *)
Definition is_cli_separator (e : Cli.Effect) : bool :=
  match e with
  | Cli.console_log (Cli.chalk Cli.green s) => str_eqb s Cli.separator
  | _ => false
  end.

(** [process.stdout.write(chalk.gray(...))] *)
Definition is_cli_thinking (e : Cli.Effect) : bool :=
  match e with
  | Cli.stdout_write (Cli.chalk Cli.gray _) => true
  | _ => false
  end.

(** [process.stdout.write(chalk.white(...))] *)
Definition is_cli_answer (e : Cli.Effect) : bool :=
  match e with
  | Cli.stdout_write (Cli.chalk Cli.white _) => true
  | _ => false
  end.

(** [output.appendLine(s)] for the given [s]. *)
Definition is_appendLine (s : str) (e : Channel.Effect) : bool :=
  match e with
  | Channel.output_appendLine s' => str_eqb s' s
  | _ => false
  end.

Definition count {A : Type} (f : A -> bool) (l : list A) : nat :=
  List.length (filter f l).

(** Sample chunks for the examples. *)
Definition reasoning_chunk (s : string) : Chunk := mkChunk (Some (lit s)) None.
Definition answer_chunk (s : string) : Chunk := mkChunk None (Some (lit s)).
Definition keep_alive : Chunk := mkChunk None None.

(** A stand-in for [marked.parse] in the examples. *)
Definition sample_marked (raw : str) : str := lit "<p>" ++ raw ++ lit "</p>".

(** A stand-in for the HTML parser in the examples: it builds the two
    fixed pieces of markup as a browser does and takes any other markup
    for text. *)
Definition sample_parse (context html : str) : View.Nodes :=
  if str_eqb html View.thinking_html then View.thinking_line
  else if str_eqb html View.response_html then View.response_block
  else View.text_content html.






(** ** The earlier panel host (the extension kept in src/cc_cli.mjs) *)

Module PanelV0.

(** [panel.webview.onDidReceiveMessage(async message => ...)] of the
    earlier extension: the same request and the same loop, outside any
    [try]. *)
Definition onDidReceiveMessage (defaultModel : str)
    (ollama : Request -> Response) (message : ViewMessage)
  : list Panel.Effect * Outcome :=
  match message with
  | cmd_send text model =>
      let model := or_else model defaultModel in
      let request := mkRequest model text in
      let before :=
        [Panel.postMessage cmd_thinking; Panel.ollama_chat request] in
      match ollama request with
      | Rejected message => (before, Threw message)
      | Stream chunks fin =>
          (before ++ map Panel.postMessage (snd (Panel.for_await false chunks)),
           match fin with
           | Exhausted => Returned
           | Raised message => Threw message
           end)
      end
  | cmd_other => ([], Returned)
  end.

End PanelV0.

(** ** Settings and nonce of the panel extension (src/src/extension.ts) *)

Module Ext.

(** [vscode.workspace.getConfiguration('convocode')]: each setting is
    there or [undefined]. *)
Record Settings : Type := mkSettings {
  get_baseUrl : option str;        (* config.get<string>('baseUrl') *)
  get_model : option str;          (* config.get<string>('model') *)
  get_models : option (list str)   (* config.get<string[]>('models') *)
}.

Definition baseUrl (config : Settings) : str :=
  or_else (get_baseUrl config) (lit "http://127.0.0.1:11434").

Definition defaultModel (config : Settings) : str :=
  or_else (get_model config) (lit "qwen3:0.6b").

(** [config.get('models') || [defaultModel]]: an array is truthy, the
    empty one included. *)
Definition availableModels (config : Settings) : list str :=
  match get_models config with
  | Some models => models
  | None => [defaultModel config]
  end.

(** The alphabet of [getNonce]. *)
Definition chars : str :=
  lit "ABCDEFGHIJKLMNOPQRSTUVWXYZabcdefghijklmnopqrstuvwxyz0123456789".

(** [s.charAt(i)]: the unit at [i] as a string, [''] out of range. *)
Definition charAt (s : str) (i : nat) : str :=
  match nth_error s i with
  | Some c => [c]
  | None => []
  end.

(** The loop of [getNonce] with [n] rounds to go, at round [i];
    [random_index i] is what [Math.floor(Math.random() * chars.length)]
    gives in round [i]. *)
Fixpoint nonce_loop (n i : nat) (random_index : nat -> nat) (text : str)
  : str :=
  match n with
  | O => text
  | S n' =>
      nonce_loop n' (S i) random_index
                 (text ++ charAt chars (random_index i))
  end.

Definition getNonce (random_index : nat -> nat) : str :=
  nonce_loop 16 0 random_index [].

(** A digit or an ASCII letter. *)
Definition is_alnum (c : N) : bool :=
  (((48 <=? c) && (c <=? 57)) || ((65 <=? c) && (c <=? 90))
   || ((97 <=? c) && (c <=? 122)))%N.

End Ext.

(** ** What the sinks end up showing *)

(** The text of the output channel: [clear] empties it, [append] adds
    the value, [appendLine] adds the value and a line feed. *)
Definition channel_apply (shown : str) (e : Channel.Effect) : str :=
  match e with
  | Channel.output_clear => []
  | Channel.output_append s => shown ++ s
  | Channel.output_appendLine s => shown ++ s ++ [10%N]
  | _ => shown
  end.

Definition channel_text (shown : str) (es : list Channel.Effect) : str :=
  fold_left channel_apply es shown.

(** The text written to the terminal in white, and in gray. *)
Definition cli_white_text (es : list Cli.Effect) : str :=
  flat_map (fun e => match e with
                     | Cli.stdout_write (Cli.chalk Cli.white s) => s
                     | _ => []
                     end) es.

Definition cli_gray_text (es : list Cli.Effect) : str :=
  flat_map (fun e => match e with
                     | Cli.stdout_write (Cli.chalk Cli.gray s) => s
                     | _ => []
                     end) es.

(** The requests among the effects of a front end, in order. *)
Definition cli_requests (es : list Cli.Effect) : list Request :=
  flat_map (fun e => match e with Cli.ollama_chat r => [r] | _ => [] end) es.

Definition panel_requests (es : list Panel.Effect) : list Request :=
  flat_map (fun e => match e with Panel.ollama_chat r => [r] | _ => [] end) es.

Definition channel_requests (es : list Channel.Effect) : list Request :=
  flat_map (fun e => match e with Channel.ollama_chat r => [r] | _ => [] end) es.

Definition is_showInputBox (e : Channel.Effect) : bool :=
  match e with Channel.showInputBox => true | _ => false end.

(** A string with white space at neither end. *)
Definition tidy (s : str) : bool :=
  match s with
  | [] => true
  | c :: _ => negb (is_white_space c) && negb (is_white_space (last s c))
  end.

(** * Properties *)

(** ** The front ends run the shared loop *)

Section Rendering.

Local Ltac body_cases started chunk :=
  destruct (truthy (thinking chunk)), (truthy (content chunk)), started;
  reflexivity.

Lemma panel_body_render (started : bool) (chunk : Chunk) :
  Panel.body started chunk =
  (fst (Agg.body started chunk),
   flat_map (Agg.render Agg.panel) (snd (Agg.body started chunk))).
Proof. unfold Panel.body, Agg.body. body_cases started chunk. Qed.

Lemma cli_body_render (started : bool) (chunk : Chunk) :
  Cli.body started chunk =
  (fst (Agg.body started chunk),
   flat_map (Agg.render Agg.cli) (snd (Agg.body started chunk))).
Proof. unfold Cli.body, Agg.body. body_cases started chunk. Qed.

Lemma channel_body_render (started : bool) (chunk : Chunk) :
  Channel.body started chunk =
  (fst (Agg.body started chunk),
   flat_map (Agg.render Agg.channel) (snd (Agg.body started chunk))).
Proof. unfold Channel.body, Agg.body. body_cases started chunk. Qed.

Lemma panel_render (chunks : list Chunk) : forall started,
  Panel.for_await started chunks =
  (fst (Agg.for_await started chunks),
   flat_map (Agg.render Agg.panel) (snd (Agg.for_await started chunks))).
Proof.
  induction chunks as [|c rest IH]; intro started; [reflexivity|].
  cbn [Panel.for_await Agg.for_await].
  rewrite panel_body_render.
  destruct (Agg.body started c) as [s1 done] eqn:Hb. cbn [fst snd].
  rewrite IH.
  destruct (Agg.for_await s1 rest) as [s2 later]. cbn [fst snd].
  now rewrite flat_map_app.
Qed.

Lemma cli_render (chunks : list Chunk) : forall started,
  Cli.for_await started chunks =
  (fst (Agg.for_await started chunks),
   flat_map (Agg.render Agg.cli) (snd (Agg.for_await started chunks))).
Proof.
  induction chunks as [|c rest IH]; intro started; [reflexivity|].
  cbn [Cli.for_await Agg.for_await].
  rewrite cli_body_render.
  destruct (Agg.body started c) as [s1 done] eqn:Hb. cbn [fst snd].
  rewrite IH.
  destruct (Agg.for_await s1 rest) as [s2 later]. cbn [fst snd].
  now rewrite flat_map_app.
Qed.

Lemma channel_render (chunks : list Chunk) : forall started,
  Channel.for_await started chunks =
  (fst (Agg.for_await started chunks),
   flat_map (Agg.render Agg.channel) (snd (Agg.for_await started chunks))).
Proof.
  induction chunks as [|c rest IH]; intro started; [reflexivity|].
  cbn [Channel.for_await Agg.for_await].
  rewrite channel_body_render.
  destruct (Agg.body started c) as [s1 done] eqn:Hb. cbn [fst snd].
  rewrite IH.
  destruct (Agg.for_await s1 rest) as [s2 later]. cbn [fst snd].
  now rewrite flat_map_app.
Qed.

End Rendering.

(** ** What the loop does, in closed form *)

(** Once [started] is set, only answers are handed on. *)
Lemma agg_started (chunks : list Chunk) :
  Agg.for_await true chunks = (true, map Agg.Answer (Agg.answers chunks)).
Proof.
  induction chunks as [|c rest IH]; [reflexivity|].
  cbn [Agg.for_await]. unfold Agg.body, Agg.answers. cbn [filter].
  unfold Agg.has_answer at 1. rewrite andb_false_r.
  destruct (truthy (content c)); cbn [negb app]; rewrite IH; reflexivity.
Qed.

(** From a fresh flag: the reasoning of the chunks up to the first
    answer, then the start, then every answer. *)
Lemma agg_fresh (chunks : list Chunk) :
  Agg.for_await false chunks =
  (existsb Agg.has_answer chunks,
   map Agg.Think (Agg.thoughts (Agg.until_answer chunks)) ++
   if existsb Agg.has_answer chunks
   then Agg.Start :: map Agg.Answer (Agg.answers chunks)
   else []).
Proof.
  induction chunks as [|c rest IH]; [reflexivity|].
  cbn [Agg.for_await Agg.until_answer existsb].
  unfold Agg.thoughts, Agg.answers in *. cbn [filter].
  pose proof (eq_refl : Agg.has_answer c = truthy (content c)) as Ha.
  pose proof (eq_refl : Agg.has_thinking c = truthy (thinking c)) as Ht.
  unfold Agg.body.
  destruct (truthy (content c)), (truthy (thinking c));
    rewrite Ha; cbn [andb negb orb app filter];
    rewrite ?agg_started, ?IH, ?Ht; reflexivity.
Qed.

Lemma answers_nonempty (chunks : list Chunk) :
  existsb Agg.has_answer chunks = true -> Agg.answers chunks <> [].
Proof.
  unfold Agg.answers.
  induction chunks as [|c rest IH]; cbn [existsb filter]; [discriminate|].
  destruct (Agg.has_answer c); cbn [orb map]; [discriminate | exact IH].
Qed.

Lemma answers_none (chunks : list Chunk) :
  existsb Agg.has_answer chunks = false -> Agg.answers chunks = [].
Proof.
  unfold Agg.answers.
  induction chunks as [|c rest IH]; cbn [existsb filter]; [reflexivity|].
  destruct (Agg.has_answer c); cbn [orb]; [discriminate | exact IH].
Qed.

(** Falsy answers add nothing to the text. *)
Lemma answer_text_answers (chunks : list Chunk) :
  Agg.answer_text chunks = List.concat (Agg.answers chunks).
Proof.
  unfold Agg.answer_text, Agg.answers.
  induction chunks as [|c rest IH]; [reflexivity|].
  cbn [map filter List.concat]. rewrite IH.
  pose proof (eq_refl : Agg.has_answer c = truthy (content c)) as Ha.
  rewrite Ha.
  destruct (content c) as [[|u s]|] eqn:E;
    cbn [truthy truthy_str text_of map List.concat app];
    rewrite ?E; reflexivity.
Qed.

(** ** Counting in a trace *)

Lemma count_app {A : Type} (f : A -> bool) (l1 l2 : list A) :
  count f (l1 ++ l2) = count f l1 + count f l2.
Proof. unfold count. now rewrite filter_app, length_app. Qed.

Lemma count_map_none {A B : Type} (f : B -> bool) (g : A -> B) (l : list A) :
  (forall a, f (g a) = false) -> count f (map g l) = 0.
Proof.
  intro Hf. unfold count.
  induction l as [|a l IH]; [reflexivity|].
  cbn [map filter]. now rewrite Hf.
Qed.

Lemma filter_map_all {A B : Type} (f : B -> bool) (g : A -> B) (l : list A) :
  (forall a, f (g a) = true) -> filter f (map g l) = map g l.
Proof.
  intro Hf. induction l as [|a l IH]; [reflexivity|].
  cbn [map filter]. now rewrite Hf, IH.
Qed.

Lemma filter_map_none {A B : Type} (f : B -> bool) (g : A -> B) (l : list A) :
  (forall a, f (g a) = false) -> filter f (map g l) = [].
Proof.
  intro Hf. induction l as [|a l IH]; [reflexivity|].
  cbn [map filter]. now rewrite Hf.
Qed.

Lemma str_eqb_refl (s : str) : str_eqb s s = true.
Proof.
  induction s as [|c s IH]; [reflexivity|].
  cbn [str_eqb]. now rewrite N.eqb_refl, IH.
Qed.

Lemma flat_map_map_single {A B C : Type}
    (g : A -> B) (h : B -> list C) (f : A -> C) (l : list A) :
  (forall a, h (g a) = [f a]) -> flat_map h (map g l) = map f l.
Proof.
  intro Hh. induction l as [|a l IH]; [reflexivity|].
  cbn [map flat_map]. now rewrite Hh, IH.
Qed.


(** ** C1: the response starts once, right before the first answer *)

(** C1. When some chunk carries a non-empty answer, every front end
    performs its start action exactly once, after the reasoning it shows
    and immediately before the first answer text: the panel posts
    [startResponse] once before the first [appendResponse]; the terminal
    logs ['\nResponse:\n========'] once, the output channel appends the
    lines ['Response:'] and ['========'] once, at that same point. *)
Theorem C1_response_started_once (chunks : list Chunk) :
  existsb Agg.has_answer chunks = true ->
  Agg.answers chunks <> [] /\
  (snd (Panel.for_await false chunks) =
     map cmd_updateThinking (Agg.thoughts (Agg.until_answer chunks))
     ++ cmd_startResponse :: map cmd_appendResponse (Agg.answers chunks)
   /\ count is_startResponse (snd (Panel.for_await false chunks)) = 1) /\
  (snd (Cli.for_await false chunks) =
     map (fun t => Cli.stdout_write (Cli.chalk Cli.gray t))
         (Agg.thoughts (Agg.until_answer chunks))
     ++ Cli.console_log (Cli.chalk Cli.green Cli.separator)
     :: map (fun t => Cli.stdout_write (Cli.chalk Cli.white t))
            (Agg.answers chunks)
   /\ count is_cli_separator (snd (Cli.for_await false chunks)) = 1) /\
  (snd (Channel.for_await false chunks) =
     map Channel.output_append (Agg.thoughts (Agg.until_answer chunks))
     ++ [Channel.output_appendLine [];
         Channel.output_appendLine (lit "Response:");
         Channel.output_appendLine (lit "========")]
     ++ map Channel.output_append (Agg.answers chunks)
   /\ count (is_appendLine (lit "Response:"))
            (snd (Channel.for_await false chunks)) = 1
   /\ count (is_appendLine (lit "========"))
            (snd (Channel.for_await false chunks)) = 1).
Proof.
  intro Hsome.
  split; [now apply answers_nonempty|].
  rewrite panel_render, cli_render, channel_render, agg_fresh, Hsome.
  cbn [snd].
  rewrite !flat_map_app. cbn [flat_map].
  rewrite (flat_map_map_single Agg.Think (Agg.render Agg.panel)
             cmd_updateThinking) by reflexivity.
  rewrite (flat_map_map_single Agg.Answer (Agg.render Agg.panel)
             cmd_appendResponse) by reflexivity.
  rewrite (flat_map_map_single Agg.Think (Agg.render Agg.cli)
             (fun t => Cli.stdout_write (Cli.chalk Cli.gray t))) by reflexivity.
  rewrite (flat_map_map_single Agg.Answer (Agg.render Agg.cli)
             (fun t => Cli.stdout_write (Cli.chalk Cli.white t))) by reflexivity.
  rewrite (flat_map_map_single Agg.Think (Agg.render Agg.channel)
             Channel.output_append) by reflexivity.
  rewrite (flat_map_map_single Agg.Answer (Agg.render Agg.channel)
             Channel.output_append) by reflexivity.
  cbn [Agg.render Agg.on_start Agg.panel Agg.cli Agg.channel app].
  repeat split.
  - rewrite count_app.
    change (cmd_startResponse :: ?l) with ([cmd_startResponse] ++ l).
    rewrite count_app, !count_map_none by reflexivity. reflexivity.
  - rewrite count_app.
    change (?x :: map ?g ?l) with ([x] ++ map g l).
    rewrite count_app, !count_map_none by reflexivity.
    unfold count. cbn [filter is_cli_separator]. now rewrite str_eqb_refl.
  - rewrite count_app.
    change (?x :: ?y :: ?z :: map ?g ?l) with ([x; y; z] ++ map g l).
    rewrite count_app, !count_map_none by reflexivity. reflexivity.
  - rewrite count_app.
    change (?x :: ?y :: ?z :: map ?g ?l) with ([x; y; z] ++ map g l).
    rewrite count_app, !count_map_none by reflexivity. reflexivity.
Qed.

Lemma C1_response_started_once_witness :
  let chunks := [reasoning_chunk "Let"; answer_chunk "Hi";
                 reasoning_chunk "late"; answer_chunk " there"] in
  existsb Agg.has_answer chunks = true /\
  count is_startResponse (snd (Panel.for_await false chunks)) = 1 /\
  count is_cli_separator (snd (Cli.for_await false chunks)) = 1.
Proof.
  intro chunks.
  split; [reflexivity|].
  pose proof (C1_response_started_once chunks eq_refl) as H.
  split; [apply H | apply H].
Defined.

(** [(s || '')] is [s]. *)
Lemma or_else_empty (s : str) : or_else (Some s) [] = s.
Proof. now destruct s. Qed.

(** ** The page: what the selectors find and what the listener does *)

Section SelectorFacts.

Variable s : View.Selector.
Variable change : str -> option str -> View.Nodes -> option str * View.Nodes.

(** An update changes no tag among the siblings. *)
Lemma update_keeps_tags (nodes : View.Nodes) :
  forall (inside : bool) (nodes' : View.Nodes) (tagName : str),
    View.update_selected s change inside nodes = Some nodes' ->
    View.has_tag tagName nodes' = View.has_tag tagName nodes.
Proof.
  induction nodes as [|data next IH|t cls raw kids IHk next IHn];
    intros inside nodes' g; cbn [View.update_selected].
  - discriminate.
  - destruct (View.update_selected s change inside next) as [next'|] eqn:Hn;
      [|discriminate].
    intro H. injection H as <-. cbn [View.has_tag]. now apply (IH inside).
  - destruct (View.selects s inside cls (View.last_of_type t next)).
    + destruct (change t raw kids) as [raw' kids'].
      intro H. now injection H as <-.
    + destruct (View.update_selected s change _ kids) as [kids'|].
      * intro H. now injection H as <-.
      * destruct (View.update_selected s change inside next) as [next'|] eqn:Hn;
          [|discriminate].
        intro H. injection H as <-. cbn [View.has_tag].
        now rewrite (IHn inside next' g Hn).
Qed.

(** Nothing is updated exactly when nothing is selected. *)
Lemma update_none (nodes : View.Nodes) :
  forall inside : bool,
    View.update_selected s change inside nodes = None <->
    View.querySelector s inside nodes = None.
Proof.
  induction nodes as [|data next IH|t cls raw kids IHk next IHn];
    intro inside; cbn [View.update_selected View.querySelector].
  - tauto.
  - rewrite <- (IH inside).
    destruct (View.update_selected s change inside next); cbn; split;
      congruence.
  - destruct (View.selects s inside cls (View.last_of_type t next)).
    + destruct (change t raw kids). split; discriminate.
    + specialize (IHk (View.enters s inside cls (View.last_of_type t next))).
      specialize (IHn inside).
      destruct (View.update_selected s change _ kids) as [kids'|];
        destruct (View.querySelector s _ kids) as [found|];
        try (split; discriminate).
      * destruct IHk as [_ IHk]. now specialize (IHk eq_refl).
      * destruct IHk as [IHk _]. now specialize (IHk eq_refl).
      * rewrite <- IHn.
        destruct (View.update_selected s change inside next); cbn; split;
          congruence.
Qed.

(** The element that is selected is the one that is updated, and it is
    the one selected afterwards: it keeps its tag and gets the
    [data-raw] and the children that [change] computes. *)
Lemma update_selected_found (nodes : View.Nodes) :
  forall (inside : bool) (tagName : str) (data_raw : option str)
         (children : View.Nodes),
    View.querySelector s inside nodes = Some (tagName, data_raw, children) ->
    exists nodes',
      View.update_selected s change inside nodes = Some nodes' /\
      View.querySelector s inside nodes' =
        Some (tagName, fst (change tagName data_raw children),
              snd (change tagName data_raw children)).
Proof.
  induction nodes as [|data next IH|t cls raw kids IHk next IHn];
    intros inside g r k; cbn [View.querySelector View.update_selected].
  - discriminate.
  - intro Hq. destruct (IH inside g r k Hq) as [next' [Hu Hq']].
    exists (View.text_node data next'). rewrite Hu. now split.
  - destruct (View.selects s inside cls (View.last_of_type t next)) eqn:Hsel.
    + intro H. injection H as <- <- <-.
      destruct (change t raw kids) as [raw' kids'] eqn:Hch.
      eexists. split; [reflexivity|].
      cbn [View.querySelector fst snd]. now rewrite Hsel.
    + destruct (View.querySelector s _ kids) as [found|] eqn:Hk.
      * intro H. injection H as ->.
        destruct (IHk _ g r k Hk) as [kids' [Hu Hq']].
        rewrite Hu. eexists. split; [reflexivity|].
        cbn [View.querySelector]. now rewrite Hsel, Hq'.
      * intro Hn.
        apply (update_none kids) in Hk. rewrite Hk.
        destruct (IHn inside g r k Hn) as [next' [Hu Hq']].
        rewrite Hu. eexists. split; [reflexivity|].
        cbn [View.querySelector].
        assert (Hlast : View.last_of_type t next' = View.last_of_type t next)
          by (unfold View.last_of_type;
              now rewrite (update_keeps_tags next inside next' t Hu)).
        rewrite Hlast, Hsel.
        apply (update_none kids) in Hk. now rewrite Hk.
Qed.

End SelectorFacts.

Section PageFacts.

Variable marked_parse : str -> str.
Variable parse_fragment : str -> str -> View.Nodes.

Lemma deliver_app (p : View.Page) (m1 m2 : list HostMessage) :
  View.deliver marked_parse parse_fragment p (m1 ++ m2) =
  View.deliver marked_parse parse_fragment
               (View.deliver marked_parse parse_fragment p m1) m2.
Proof. unfold View.deliver. apply fold_left_app. Qed.

(** One [appendResponse] on a page where a span is selected: the same
    span is selected afterwards, with the text added to its raw text. *)
Lemma append_on_response (p : View.Page) (text tagName : str)
    (data_raw : option str) (children : View.Nodes) :
  View.response_content p = Some (tagName, data_raw, children) ->
  View.response_content
    (View.on_message marked_parse parse_fragment p (cmd_appendResponse text)) =
  Some (tagName, Some (or_else data_raw [] ++ text),
        parse_fragment tagName (marked_parse (or_else data_raw [] ++ text))).
Proof.
  intro Hq. unfold View.response_content in *.
  cbn [View.on_message View.chat].
  destruct (update_selected_found View.response_selector
              (View.append_raw marked_parse parse_fragment text)
              (View.chat p) false tagName data_raw children Hq)
    as [nodes' [Hu Hq']].
  rewrite Hu. cbn [View.when_found]. exact Hq'.
Qed.

(** A run of [appendResponse]s accumulates their texts in that span. *)
Lemma deliver_appends (texts : list str) :
  forall (p : View.Page) (tagName : str) (data_raw : option str)
         (children : View.Nodes),
    View.response_content p = Some (tagName, data_raw, children) ->
    texts <> [] ->
    View.response_content
      (View.deliver marked_parse parse_fragment p
                    (map cmd_appendResponse texts)) =
    Some (tagName, Some (or_else data_raw [] ++ List.concat texts),
          parse_fragment tagName
            (marked_parse (or_else data_raw [] ++ List.concat texts))).
Proof.
  induction texts as [|t rest IH]; intros p tagName data_raw children Hq Hne;
    [contradiction|].
  cbn [map View.deliver fold_left List.concat].
  pose proof (append_on_response p t tagName data_raw children Hq) as H1.
  destruct rest as [|t' rest'].
  - cbn [map fold_left List.concat]. now rewrite app_nil_r.
  - unfold View.deliver in IH. rewrite (IH _ _ _ _ H1) by discriminate.
    now rewrite or_else_empty, <- app_assoc.
Qed.


(** *** A transcript without the class [response-content] *)

Lemma clean_selects_nothing (nodes : View.Nodes) :
  View.carries_class (lit "response-content") nodes = false ->
  forall inside,
    View.querySelector View.response_selector inside nodes = None.
Proof.
  induction nodes as [|data next IH|t cls raw kids IHk next IHn];
    cbn [View.carries_class View.querySelector]; intros Hc inside.
  - reflexivity.
  - now apply IH.
  - apply orb_false_elim in Hc as [Hc Hn].
    apply orb_false_elim in Hc as [Hc Hk].
    cbn [View.selects View.response_selector]. rewrite Hc. cbn [andb].
    now rewrite (IHk Hk), (IHn Hn).
Qed.

Lemma clean_append (nodes added : View.Nodes) :
  View.carries_class (lit "response-content") nodes = false ->
  forall inside,
    View.querySelector View.response_selector inside
                       (View.append nodes added) =
    View.querySelector View.response_selector inside added.
Proof.
  induction nodes as [|data next IH|t cls raw kids IHk next IHn];
    cbn [View.carries_class View.append View.querySelector];
    intros Hc inside.
  - reflexivity.
  - now apply IH.
  - apply orb_false_elim in Hc as [Hc Hn].
    apply orb_false_elim in Hc as [Hc Hk].
    cbn [View.selects View.response_selector]. rewrite Hc. cbn [andb].
    now rewrite (clean_selects_nothing kids Hk), (IHn Hn).
Qed.

Lemma set_thinking_keeps_clean (text name : str) (nodes : View.Nodes) :
  forall (inside : bool) (nodes' : View.Nodes),
    View.update_selected View.thinking_selector (View.set_thinking text)
                         inside nodes = Some nodes' ->
    View.carries_class name nodes = false ->
    View.carries_class name nodes' = false.
Proof.
  induction nodes as [|data next IH|t cls raw kids IHk next IHn];
    intros inside nodes'; cbn [View.update_selected].
  - discriminate.
  - destruct (View.update_selected _ _ inside next) as [next'|] eqn:Hn;
      [|discriminate].
    intro H. injection H as <-. cbn [View.carries_class].
    now apply (IH inside).
  - destruct (View.selects _ inside cls _).
    + cbn [View.set_thinking]. intro H. injection H as <-.
      cbn [View.carries_class]. intro Hc.
      apply orb_false_elim in Hc as [Hc Hn].
      apply orb_false_elim in Hc as [Hc Hk]. rewrite Hc, Hn.
      now destruct text.
    + destruct (View.update_selected _ _ _ kids) as [kids'|] eqn:Hk.
      * intro H. injection H as <-. cbn [View.carries_class]. intro Hc.
        apply orb_false_elim in Hc as [Hc Hn].
        apply orb_false_elim in Hc as [Hc Hk'].
        now rewrite Hc, Hn, (IHk _ kids' Hk Hk').
      * destruct (View.update_selected _ _ inside next) as [next'|] eqn:Hn;
          [|discriminate].
        intro H. injection H as <-. cbn [View.carries_class]. intro Hc.
        apply orb_false_elim in Hc as [Hc Hn'].
        apply orb_false_elim in Hc as [Hc Hk'].
        now rewrite Hc, Hk', (IHn _ next' Hn Hn').
Qed.

Lemma thinking_updates_keep_clean (name : str) (texts : list str) :
  forall p : View.Page,
    View.carries_class name (View.chat p) = false ->
    View.carries_class name
      (View.chat (View.deliver marked_parse parse_fragment p
                               (map cmd_updateThinking texts))) = false.
Proof.
  induction texts as [|t rest IH]; intros p Hc; [exact Hc|].
  cbn [map View.deliver fold_left]. apply IH.
  cbn [View.on_message View.chat].
  destruct (View.update_selected View.thinking_selector (View.set_thinking t)
                                 false (View.chat p)) as [nodes'|] eqn:Hu;
    cbn [View.when_found]; [|exact Hc].
  exact (set_thinking_keeps_clean t name (View.chat p) false nodes' Hu Hc).
Qed.

(** On a transcript none of whose elements has the class
    [response-content], the span selected when the response starts is
    the one just added. *)
Lemma new_span_is_selected_on_a_clean_page (p : View.Page)
    (texts : list str) :
  parse_fragment (lit "div") View.response_html = View.response_block ->
  View.carries_class (lit "response-content") (View.chat p) = false ->
  View.response_content
    (View.deliver marked_parse parse_fragment p
                  (map cmd_updateThinking texts ++ [cmd_startResponse])) =
  Some (lit "span", Some [], View.no_nodes).
Proof.
  intros Hparse Hc. rewrite deliver_app.
  pose proof (thinking_updates_keep_clean (lit "response-content") texts p Hc)
    as Hc'.
  unfold View.response_content.
  cbn [View.deliver fold_left View.on_message View.chat].
  unfold View.insert_beforeend. rewrite Hparse.
  now rewrite (clean_append _ View.response_block Hc' false).
Qed.

End PageFacts.

(** ** C2: the last update shows all the answer text *)




(** ** C9: the raw answer text only grows at its end *)

(** C9. When the page has a response span with raw text [raw], handling
    [appendResponse] with text [text] leaves it with raw text
    [raw ++ text] (and the rendering of that): the old raw text is a
    prefix of the new one. The raw text of a span without the attribute
    is the empty string. *)
Theorem C9_raw_is_append_only (marked_parse : str -> str)
    (parse_fragment : str -> str -> View.Nodes) (p : View.Page)
    (text tagName : str) (data_raw : option str) (children : View.Nodes) :
  View.response_content p = Some (tagName, data_raw, children) ->
  View.response_content
    (View.on_message marked_parse parse_fragment p (cmd_appendResponse text)) =
  Some (tagName, Some (or_else data_raw [] ++ text),
        parse_fragment tagName (marked_parse (or_else data_raw [] ++ text))) /\
  firstn (List.length (or_else data_raw [])) (or_else data_raw [] ++ text)
    = or_else data_raw [].
Proof.
  intro Hp. split.
  - exact (append_on_response marked_parse parse_fragment p text tagName
             data_raw children Hp).
  - rewrite firstn_app, Nat.sub_diag, firstn_all. cbn [firstn].
    apply app_nil_r.
Qed.

Lemma C9_raw_is_append_only_witness :
  let p :=
    View.mkPage
      (View.text_node (lit "q")
         (View.element (lit "div") [lit "assistant-message"] None
            (View.element (lit "span") [lit "response-content"]
               (Some (lit "Hi")) (View.text_node (lit "stale") View.no_nodes)
               View.no_nodes)
            View.no_nodes))
      [] (lit "qwen3:0.6b") in
  View.response_content p =
    Some (lit "span", Some (lit "Hi"),
          View.text_node (lit "stale") View.no_nodes) /\
  View.response_content
    (View.on_message sample_marked sample_parse p
                     (cmd_appendResponse (lit " there"))) =
  Some (lit "span", Some (lit "Hi there"),
        sample_parse (lit "span") (sample_marked (lit "Hi there"))).
Proof.
  intro p. split; [reflexivity|].
  exact (proj1 (C9_raw_is_append_only sample_marked sample_parse p
                  (lit " there") (lit "span") (Some (lit "Hi"))
                  (View.text_node (lit "stale") View.no_nodes) eq_refl)).
Defined.

(** Over the appends of a turn: what the span holds after the first
    texts is a prefix of what it holds after more of them. *)
Lemma raw_grows_over_turn (marked_parse : str -> str)
    (parse_fragment : str -> str -> View.Nodes) (p : View.Page)
    (tagName : str) (data_raw : option str) (children : View.Nodes)
    (seen later : list str) :
  View.response_content p = Some (tagName, data_raw, children) ->
  seen <> [] ->
  View.response_content
    (View.deliver marked_parse parse_fragment p
                  (map cmd_appendResponse seen)) =
  Some (tagName, Some (or_else data_raw [] ++ List.concat seen),
        parse_fragment tagName
          (marked_parse (or_else data_raw [] ++ List.concat seen))) /\
  View.response_content
    (View.deliver marked_parse parse_fragment p
                  (map cmd_appendResponse (seen ++ later))) =
  Some (tagName,
        Some ((or_else data_raw [] ++ List.concat seen) ++ List.concat later),
        parse_fragment tagName
          (marked_parse
             ((or_else data_raw [] ++ List.concat seen) ++ List.concat later))).
Proof.
  intros Hp Hne. split.
  - now apply deliver_appends with (children := children).
  - rewrite (deliver_appends marked_parse parse_fragment (seen ++ later) p
               tagName data_raw children Hp)
      by (destruct seen; [contradiction|discriminate]).
    now rewrite concat_app, app_assoc.
Qed.

(** ** C3: which reasoning and which answers are handed on *)

(** The closed form of the three loops, from a fresh flag. *)
Lemma loops_closed_form (chunks : list Chunk) :
  snd (Panel.for_await false chunks) =
    map cmd_updateThinking (Agg.thoughts (Agg.until_answer chunks)) ++
    (if existsb Agg.has_answer chunks
     then cmd_startResponse :: map cmd_appendResponse (Agg.answers chunks)
     else []) /\
  snd (Cli.for_await false chunks) =
    map (fun t => Cli.stdout_write (Cli.chalk Cli.gray t))
        (Agg.thoughts (Agg.until_answer chunks)) ++
    (if existsb Agg.has_answer chunks
     then Cli.console_log (Cli.chalk Cli.green Cli.separator)
          :: map (fun t => Cli.stdout_write (Cli.chalk Cli.white t))
                 (Agg.answers chunks)
     else []) /\
  snd (Channel.for_await false chunks) =
    map Channel.output_append (Agg.thoughts (Agg.until_answer chunks)) ++
    (if existsb Agg.has_answer chunks
     then [Channel.output_appendLine [];
           Channel.output_appendLine (lit "Response:");
           Channel.output_appendLine (lit "========")]
          ++ map Channel.output_append (Agg.answers chunks)
     else []).
Proof.
  rewrite panel_render, cli_render, channel_render, agg_fresh. cbn [snd].
  rewrite !flat_map_app.
  rewrite (flat_map_map_single Agg.Think (Agg.render Agg.panel)
             cmd_updateThinking) by reflexivity.
  rewrite (flat_map_map_single Agg.Think (Agg.render Agg.cli)
             (fun t => Cli.stdout_write (Cli.chalk Cli.gray t))) by reflexivity.
  rewrite (flat_map_map_single Agg.Think (Agg.render Agg.channel)
             Channel.output_append) by reflexivity.
  destruct (existsb Agg.has_answer chunks); [|repeat split].
  cbn [flat_map].
  rewrite (flat_map_map_single Agg.Answer (Agg.render Agg.panel)
             cmd_appendResponse) by reflexivity.
  rewrite (flat_map_map_single Agg.Answer (Agg.render Agg.cli)
             (fun t => Cli.stdout_write (Cli.chalk Cli.white t))) by reflexivity.
  rewrite (flat_map_map_single Agg.Answer (Agg.render Agg.channel)
             Channel.output_append) by reflexivity.
  repeat split.
Qed.

(** C3, as the code has it. The flag does gate the reasoning: a chunk's
    non-empty reasoning is handed to the sink exactly when no earlier
    chunk carried a non-empty answer (the chunk that carries the first
    answer still has its reasoning shown, before the start). Answers are
    never held back: every non-empty answer is handed on, in order. *)
Theorem C3_reasoning_shown_until_first_answer (chunks : list Chunk) :
  filter is_updateThinking (snd (Panel.for_await false chunks)) =
    map cmd_updateThinking (Agg.thoughts (Agg.until_answer chunks)) /\
  filter is_appendResponse (snd (Panel.for_await false chunks)) =
    map cmd_appendResponse (Agg.answers chunks) /\
  filter is_cli_thinking (snd (Cli.for_await false chunks)) =
    map (fun t => Cli.stdout_write (Cli.chalk Cli.gray t))
        (Agg.thoughts (Agg.until_answer chunks)) /\
  filter is_cli_answer (snd (Cli.for_await false chunks)) =
    map (fun t => Cli.stdout_write (Cli.chalk Cli.white t))
        (Agg.answers chunks).
Proof.
  destruct (loops_closed_form chunks) as [Hp [Hc _]].
  rewrite Hp, Hc, !filter_app.
  destruct (existsb Agg.has_answer chunks) eqn:Hsome;
    [|rewrite (answers_none _ Hsome)];
    cbn [filter is_updateThinking is_appendResponse is_cli_thinking
         is_cli_answer map];
    repeat first [ rewrite filter_map_all by reflexivity
                 | rewrite filter_map_none by reflexivity ];
    rewrite ?app_nil_r; repeat split.
Qed.

(** C3 as written fails: reasoning that arrives after an answer produces
    no update, neither in the panel nor on the terminal. *)
Lemma C3_late_reasoning_is_dropped :
  let late := reasoning_chunk "hmm" in
  let chunks := [answer_chunk "Hi"; late] in
  (In late chunks /\ truthy (thinking late) = true) /\
  snd (Panel.for_await false chunks) =
    [cmd_startResponse; cmd_appendResponse (lit "Hi")] /\
  count is_updateThinking (snd (Panel.for_await false chunks)) = 0 /\
  snd (Cli.for_await false chunks) =
    [Cli.console_log (Cli.chalk Cli.green Cli.separator);
     Cli.stdout_write (Cli.chalk Cli.white (lit "Hi"))].
Proof.
  repeat split. right. left. reflexivity.
Qed.

(** ** C6: a chunk with neither field populated *)

Lemma blank_fields (chunk : Chunk) :
  Agg.blank chunk = true <->
  truthy (thinking chunk) = false /\ truthy (content chunk) = false.
Proof.
  unfold Agg.blank, Agg.has_thinking, Agg.has_answer.
  destruct (truthy (thinking chunk)), (truthy (content chunk));
    cbn; intuition congruence.
Qed.

Lemma agg_blank_body (started : bool) (chunk : Chunk) :
  truthy (thinking chunk) = false -> truthy (content chunk) = false ->
  Agg.body started chunk = (started, []).
Proof. intros Ht Hc. unfold Agg.body. now rewrite Ht, Hc. Qed.

(** A blank chunk anywhere in the stream changes nothing. *)
Lemma agg_skip_blank (chunk : Chunk) (before after : list Chunk) :
  truthy (thinking chunk) = false -> truthy (content chunk) = false ->
  forall started,
    Agg.for_await started (before ++ chunk :: after) =
    Agg.for_await started (before ++ after).
Proof.
  intros Ht Hc.
  induction before as [|c rest IH]; intro started.
  - cbn [app Agg.for_await]. rewrite (agg_blank_body started chunk Ht Hc).
    now destruct (Agg.for_await started after).
  - cbn [app Agg.for_await].
    destruct (Agg.body started c) as [s1 done]. now rewrite IH.
Qed.

(** C6. A chunk whose reasoning and answer are both empty or absent
    makes no front end emit anything and leaves [started] as it was; the
    page is left untouched, and removing the chunk from the stream
    changes neither the trace nor the final flag. *)
Theorem C6_blank_chunk_is_a_noop (started : bool) (chunk : Chunk) :
  truthy (thinking chunk) = false ->
  truthy (content chunk) = false ->
  Panel.body started chunk = (started, []) /\
  Cli.body started chunk = (started, []) /\
  Channel.body started chunk = (started, []) /\
  (forall (marked_parse : str -> str)
          (parse_fragment : str -> str -> View.Nodes) (p : View.Page),
      View.deliver marked_parse parse_fragment p
                   (snd (Panel.body started chunk)) = p) /\
  (forall before after : list Chunk,
      Panel.for_await started (before ++ chunk :: after) =
        Panel.for_await started (before ++ after) /\
      Cli.for_await started (before ++ chunk :: after) =
        Cli.for_await started (before ++ after) /\
      Channel.for_await started (before ++ chunk :: after) =
        Channel.for_await started (before ++ after)).
Proof.
  intros Ht Hc.
  assert (Hp : Panel.body started chunk = (started, []))
    by (unfold Panel.body; now rewrite Ht, Hc).
  repeat split.
  - exact Hp.
  - unfold Cli.body. now rewrite Ht, Hc.
  - unfold Channel.body. now rewrite Ht, Hc.
  - intros marked_parse parse_fragment p. now rewrite Hp.
  - now rewrite !panel_render, agg_skip_blank.
  - now rewrite !cli_render, agg_skip_blank.
  - now rewrite !channel_render, agg_skip_blank.
Qed.

Lemma C6_blank_chunk_is_a_noop_witness :
  let chunk := mkChunk (Some []) None in
  (truthy (thinking chunk) = false /\ truthy (content chunk) = false) /\
  Panel.body true chunk = (true, []) /\
  Panel.body false chunk = (false, []) /\
  Cli.for_await false [reasoning_chunk "a"; chunk; answer_chunk "b"] =
  Cli.for_await false [reasoning_chunk "a"; answer_chunk "b"].
Proof.
  intro chunk. split; [split; reflexivity|].
  split; [exact (proj1 (C6_blank_chunk_is_a_noop true chunk eq_refl eq_refl))|].
  split; [exact (proj1 (C6_blank_chunk_is_a_noop false chunk eq_refl eq_refl))|].
  pose proof (C6_blank_chunk_is_a_noop false chunk eq_refl eq_refl)
    as [_ [_ [_ [_ H]]]].
  exact (proj1 (proj2 (H [reasoning_chunk "a"] [answer_chunk "b"]))).
Defined.

(** ** C4: what happens when the stream is exhausted *)

Lemma agg_all_blank (chunks : list Chunk) :
  forallb Agg.blank chunks = true ->
  forall started, Agg.for_await started chunks = (started, []).
Proof.
  induction chunks as [|c rest IH]; intros Hall started; [reflexivity|].
  cbn [forallb] in Hall. apply andb_prop in Hall as [Hc Hrest].
  apply blank_fields in Hc as [Ht Hc].
  cbn [Agg.for_await]. rewrite (agg_blank_body started c Ht Hc).
  now rewrite (IH Hrest).
Qed.

Lemma panel_posts_no_error_in_loop (chunks : list Chunk) :
  count is_error (snd (Panel.for_await false chunks)) = 0.
Proof.
  destruct (loops_closed_form chunks) as [-> _].
  rewrite count_app, count_map_none by reflexivity.
  destruct (existsb Agg.has_answer chunks); [|reflexivity].
  change (cmd_startResponse :: ?l) with ([cmd_startResponse] ++ l).
  now rewrite count_app, count_map_none by reflexivity.
Qed.

(** C4, as the code has it. On exhaustion the terminal front end logs a
    closing newline, prompts again and returns; the panel posts nothing
    on exhaustion (its messages are those of the loop, no [error] among
    them) and neither does the output channel. For chunks that are all
    blank (the empty stream included) the loop itself emits nothing: the
    terminal shows the closing newline and the prompt only, the panel
    and the channel get nothing at all. *)
Theorem C4_exhaustion (chunks blanks : list Chunk) :
  forallb Agg.blank blanks = true ->
  (Cli.stream_block chunks Exhausted =
     (snd (Cli.for_await false chunks)
        ++ [Cli.console_log (Cli.plain [10%N]); Cli.rl_prompt],
      Returned) /\
   Panel.stream_block (Stream chunks Exhausted) =
     snd (Panel.for_await false chunks) /\
   count is_error (Panel.stream_block (Stream chunks Exhausted)) = 0) /\
  (Cli.stream_block blanks Exhausted =
     ([Cli.console_log (Cli.plain [10%N]); Cli.rl_prompt], Returned) /\
   Panel.stream_block (Stream blanks Exhausted) = [] /\
   snd (Channel.for_await false blanks) = []).
Proof.
  intro Hall.
  assert (Hblock : forall cs, Panel.stream_block (Stream cs Exhausted) =
                              snd (Panel.for_await false cs))
    by (intro cs; cbn [Panel.stream_block]; apply app_nil_r).
  split; [split; [reflexivity|split]|split; [|split]].
  - apply Hblock.
  - rewrite Hblock. apply panel_posts_no_error_in_loop.
  - unfold Cli.stream_block.
    now rewrite cli_render, (agg_all_blank blanks Hall).
  - now rewrite Hblock, panel_render, (agg_all_blank blanks Hall).
  - now rewrite channel_render, (agg_all_blank blanks Hall).
Qed.

Lemma C4_exhaustion_witness :
  let blanks := [keep_alive; mkChunk (Some []) (Some []); keep_alive] in
  forallb Agg.blank blanks = true /\
  Cli.stream_block blanks Exhausted =
    ([Cli.console_log (Cli.plain [10%N]); Cli.rl_prompt], Returned) /\
  Panel.stream_block (Stream blanks Exhausted) = [].
Proof.
  intro blanks. split; [reflexivity|].
  pose proof (C4_exhaustion [] blanks eq_refl) as [_ [Hcli [Hpanel _]]].
  split; [exact Hcli | exact Hpanel].
Defined.

(** C4 as written fails for the panel: for the empty stream the loop
    posts no message at all, and the one message of the whole handler is
    [thinking], posted before the model is asked; nothing stands for the
    completion of the turn. *)
Lemma C4_panel_posts_no_completion :
  let ollama := fun _ : Request => Stream [] Exhausted in
  let handled :=
    Panel.onDidReceiveMessage (lit "qwen3:0.6b") ollama
                              (cmd_send (lit "hi") None) in
  Panel.stream_block (Stream [] Exhausted) = [] /\
  (Panel.posted (fst handled) = [cmd_thinking] /\ snd handled = Returned) /\
  map SpecSide.event_of_message (Panel.posted (fst handled))
    = [SpecSide.ThinkingStarted] /\
  map SpecSide.event_of_message (Panel.posted (fst handled))
    <> [SpecSide.TurnCompleted] /\
  map SpecSide.event_of_message (Panel.stream_block (Stream [] Exhausted))
    <> [SpecSide.TurnCompleted].
Proof.
  repeat split; discriminate.
Qed.

(** ** C5: a stream that fails *)

(** The panel catches the failure: the messages of the chunks that
    arrived, then one [error] with the message, and the handler returns.
    The page appends what the parser makes of the error markup. *)
Lemma panel_failure_is_posted (marked_parse : str -> str)
    (parse_fragment : str -> str -> View.Nodes)
    (defaultModel : str) (text : str) (model : option str)
    (chunks : list Chunk) (message : str) (p : View.Page) :
  let ollama := fun _ : Request => Stream chunks (Raised message) in
  let handled :=
    Panel.onDidReceiveMessage defaultModel ollama (cmd_send text model) in
  snd handled = Returned /\
  Panel.posted (fst handled) =
    cmd_thinking :: snd (Panel.for_await false chunks) ++ [cmd_error message] /\
  View.chat (View.on_message marked_parse parse_fragment p
                             (cmd_error message)) =
    View.append (View.chat p)
                (parse_fragment (lit "div") (View.error_html message)).
Proof.
  cbn zeta. split; [reflexivity|]. split; [|reflexivity].
  cbn [Panel.onDidReceiveMessage fst Panel.stream_block app Panel.posted
       flat_map].
  f_equal.
  generalize (snd (Panel.for_await false chunks) ++ [cmd_error message]).
  intro l. induction l as [|m l IH]; [reflexivity|].
  cbn [map flat_map app]. now rewrite IH.
Qed.

(** A connection that cannot be made is caught by the panel as well. *)
Lemma panel_rejection_is_posted (defaultModel text message : str)
    (model : option str) :
  Panel.onDidReceiveMessage defaultModel (fun _ => Rejected message)
                            (cmd_send text model) =
  ([Panel.postMessage cmd_thinking;
    Panel.ollama_chat (mkRequest (or_else model defaultModel) text);
    Panel.postMessage (cmd_error message)],
   Returned).
Proof. reflexivity. Qed.

(** On the terminal nothing catches it: the error leaves the handler
    after the writes of the chunks that arrived, with no closing newline
    and no new prompt. *)
Lemma cli_failure_escapes (ollama : Request -> Response) (line : str)
    (chunks : list Chunk) (message : str) :
  truthy_str (trim line) = true ->
  ollama (mkRequest (lit "qwen3:0.6b") (trim line)) =
    Stream chunks (Raised message) ->
  Cli.on_line ollama line =
  ([Cli.console_log (Cli.boxen (Cli.chalk Cli.yellow (lit "Thinking...")));
    Cli.ollama_chat (mkRequest (lit "qwen3:0.6b") (trim line))]
     ++ snd (Cli.for_await false chunks),
   Threw message).
Proof.
  intros Hline Hresp. unfold Cli.on_line.
  now rewrite Hline, Hresp.
Qed.

(** C5 at a failing input: the stream gives one answer chunk and then
    raises. The terminal handler writes the separator and the answer and
    is left by the error; it writes nothing about the failure. The
    output channel does the same. *)
Theorem C5_terminal_does_not_print_failure :
  let ollama := fun _ : Request =>
    Stream [answer_chunk "X"] (Raised (lit "boom")) in
  Cli.on_line ollama (lit "hi") =
    ([Cli.console_log (Cli.boxen (Cli.chalk Cli.yellow (lit "Thinking...")));
      Cli.ollama_chat (mkRequest (lit "qwen3:0.6b") (lit "hi"));
      Cli.console_log (Cli.chalk Cli.green Cli.separator);
      Cli.stdout_write (Cli.chalk Cli.white (lit "X"))],
     Threw (lit "boom")) /\
  Channel.round ollama (lit "hi") =
    ([Channel.output_clear;
      Channel.output_appendLine (lit "Thinking...");
      Channel.output_show;
      Channel.ollama_chat (mkRequest (lit "qwen3:0.6b") (lit "hi"));
      Channel.output_appendLine [];
      Channel.output_appendLine (lit "Response:");
      Channel.output_appendLine (lit "========");
      Channel.output_append (lit "X")],
     Threw (lit "boom")) /\
  Panel.posted
    (fst (Panel.onDidReceiveMessage (lit "qwen3:0.6b") ollama
                                    (cmd_send (lit "hi") None))) =
    [cmd_thinking; cmd_startResponse; cmd_appendResponse (lit "X");
     cmd_error (lit "boom")].
Proof. repeat split. Qed.

(** ** C8: a blank submission, front end by front end *)

Lemma trimStart_blank (s : str) :
  forallb is_white_space s = true -> trimStart s = [].
Proof.
  induction s as [|c s IH]; [reflexivity|].
  cbn [forallb trimStart]. intro H. apply andb_prop in H as [Hc Hs].
  rewrite Hc. now apply IH.
Qed.

Lemma trimEnd_keeps_nonblank (c : N) (s : str) :
  is_white_space c = false -> trimEnd (c :: s) <> [].
Proof.
  intro Hc. cbn [trimEnd]. rewrite Hc.
  destruct (trimEnd s); discriminate.
Qed.

(** [trim] gives the empty string exactly for strings of white space. *)
Lemma trim_blank_iff (s : str) :
  trim s = [] <-> forallb is_white_space s = true.
Proof.
  unfold trim. split.
  - induction s as [|c s IH]; [reflexivity|].
    cbn [trimStart forallb].
    destruct (is_white_space c) eqn:Hc; [exact IH|].
    intro H. now apply trimEnd_keeps_nonblank in H.
  - intro H. now rewrite trimStart_blank.
Qed.

Lemma channel_loop_has_no_request (chunks : list Chunk) :
  channel_requests (snd (Channel.for_await false chunks)) = [] /\
  count is_showInputBox (snd (Channel.for_await false chunks)) = 0.
Proof.
  destruct (loops_closed_form chunks) as [_ [_ ->]].
  assert (Hr : forall l, channel_requests (map Channel.output_append l) = []).
  { intro l. induction l as [|t l IH]; [reflexivity|].
    unfold channel_requests in *. cbn [map flat_map]. now rewrite IH. }
  unfold channel_requests in *. rewrite flat_map_app, count_app.
  rewrite Hr, count_map_none by reflexivity.
  destruct (existsb Agg.has_answer chunks); [|split; reflexivity].
  rewrite flat_map_app, count_app, Hr, count_map_none by reflexivity.
  split; reflexivity.
Qed.

Lemma channel_round_request (ollama : Request -> Response) (userInput : str) :
  channel_requests (fst (Channel.round ollama userInput)) =
    [mkRequest (lit "qwen3:0.6b") userInput] /\
  count is_showInputBox (fst (Channel.round ollama userInput)) = 0.
Proof.
  unfold Channel.round.
  destruct (ollama (mkRequest (lit "qwen3:0.6b") userInput)) as [m|chunks fin];
    [split; reflexivity|].
  cbn [fst]. unfold channel_requests. rewrite flat_map_app, count_app.
  destruct (channel_loop_has_no_request chunks) as [Hr Hc].
  unfold channel_requests in Hr. rewrite Hr, Hc. split; reflexivity.
Qed.




(** The output channel has no such guard: an input box answered with
    the empty string still asks the model. *)
Lemma channel_accepts_empty_input (ollama : Request -> Response) :
  exists written outcome,
    Channel.round ollama [] =
    ([Channel.output_clear; Channel.output_appendLine (lit "Thinking...");
      Channel.output_show;
      Channel.ollama_chat (mkRequest (lit "qwen3:0.6b") [])] ++ written,
     outcome).
Proof.
  unfold Channel.round.
  destruct (ollama (mkRequest (lit "qwen3:0.6b") [])) as [m|chunks fin].
  - exists [], (Threw m). now rewrite app_nil_r.
  - now eexists _, _.
Qed.

(** ** C10: the loop is deterministic *)

(** A configuration has at most one successor. *)
Lemma step_deterministic (cfg cfg1 cfg2 : Agg.Config) :
  Agg.step cfg cfg1 -> Agg.step cfg cfg2 -> cfg1 = cfg2.
Proof.
  intros H1 H2.
  inversion H1; subst; inversion H2; subst;
    try reflexivity;
    repeat match goal with
           | H : _ && negb _ = _ |- _ =>
               cbn [negb] in H; rewrite ?andb_true_r, ?andb_false_r in H
           end;
    congruence.
Qed.

(** No step leaves a configuration whose chunks are used up. *)
Lemma step_needs_chunk (started : bool) (out : list Agg.Step)
    (cfg : Agg.Config) :
  ~ Agg.step (started, [], out) cfg.
Proof. intro H. inversion H. Qed.

Lemma runs_deterministic (cfg : Agg.Config) (out1 out2 : list Agg.Step) :
  Agg.runs cfg out1 -> Agg.runs cfg out2 -> out1 = out2.
Proof.
  intro H1. revert out2.
  induction H1 as [started out|cfg cfg' out Hstep Hruns IH]; intros out2 H2.
  - inversion H2; subst; [reflexivity|].
    now apply step_needs_chunk in H.
  - inversion H2; subst.
    + now apply step_needs_chunk in Hstep.
    + rewrite (step_deterministic _ _ _ Hstep H) in IH. now apply IH.
Qed.

(** Every configuration with a chunk left takes the step of the body. *)
Lemma step_follows_body (started : bool) (c : Chunk) (rest : list Chunk)
    (out : list Agg.Step) :
  Agg.step (started, c :: rest, out)
           (fst (Agg.body started c), rest, out ++ snd (Agg.body started c)).
Proof.
  unfold Agg.body.
  destruct (truthy (content c)) eqn:Hc, (truthy (thinking c)) eqn:Ht, started;
    cbn [andb negb fst snd app]; rewrite ?app_nil_r;
    first [ now apply Agg.step_more
          | now apply Agg.step_think_first
          | now apply Agg.step_first
          | apply Agg.step_think; [now rewrite Ht | exact Hc]
          | apply Agg.step_skip; [now rewrite Ht | exact Hc] ].
Qed.

(** The loop always runs to the end, and does what [for_await] computes. *)
Lemma runs_for_await (chunks : list Chunk) :
  forall (started : bool) (out : list Agg.Step),
    Agg.runs (started, chunks, out)
             (out ++ snd (Agg.for_await started chunks)).
Proof.
  induction chunks as [|c rest IH]; intros started out.
  - cbn [Agg.for_await snd]. rewrite app_nil_r. apply Agg.runs_done.
  - eapply Agg.runs_step; [apply step_follows_body|].
    cbn [Agg.for_await].
    destruct (Agg.body started c) as [s1 done]. cbn [fst snd].
    specialize (IH s1 (out ++ done)).
    destruct (Agg.for_await s1 rest) as [s2 later]. cbn [snd] in *.
    now rewrite app_assoc.
Qed.

(** C10. Two runs of the loop over the same chunks, from a fresh flag,
    do the same things in the same order, and every front end's trace is
    the rendering of that one sequence. *)
Theorem C10_two_runs_agree (chunks : list Chunk) (out1 out2 : list Agg.Step) :
  Agg.runs (false, chunks, []) out1 ->
  Agg.runs (false, chunks, []) out2 ->
  out1 = out2 /\
  snd (Panel.for_await false chunks) = flat_map (Agg.render Agg.panel) out1 /\
  snd (Cli.for_await false chunks) = flat_map (Agg.render Agg.cli) out1 /\
  snd (Channel.for_await false chunks) =
    flat_map (Agg.render Agg.channel) out1.
Proof.
  intros H1 H2.
  pose proof (runs_for_await chunks false []) as Hf. cbn [app] in Hf.
  rewrite (runs_deterministic _ _ _ H1 Hf).
  rewrite (runs_deterministic _ _ _ H2 Hf).
  now rewrite panel_render, cli_render, channel_render.
Qed.

Lemma C10_two_runs_agree_witness :
  let chunks := [reasoning_chunk "Let"; answer_chunk "Hi"] in
  let out := [Agg.Think (lit "Let"); Agg.Start; Agg.Answer (lit "Hi")] in
  Agg.runs (false, chunks, []) out /\
  snd (Panel.for_await false chunks) = flat_map (Agg.render Agg.panel) out.
Proof.
  intros chunks out.
  assert (Hrun : Agg.runs (false, chunks, []) out).
  { eapply Agg.runs_step.
    - apply (Agg.step_think false (reasoning_chunk "Let")); reflexivity.
    - eapply Agg.runs_step.
      + apply (Agg.step_first (answer_chunk "Hi")); reflexivity.
      + apply Agg.runs_done. }
  split; [exact Hrun|].
  exact (proj1 (proj2 (C10_two_runs_agree chunks out out Hrun Hrun))).
Defined.

(** ** A whole turn on the terminal *)

(** A line that is not blank, answered by a stream that runs dry: the
    box, the request, the writes of the loop, the closing newline and
    the prompt; the handler returns. *)
Lemma cli_turn_completes (ollama : Request -> Response) (line : str)
    (chunks : list Chunk) :
  truthy_str (trim line) = true ->
  ollama (mkRequest (lit "qwen3:0.6b") (trim line)) = Stream chunks Exhausted ->
  Cli.on_line ollama line =
  ([Cli.console_log (Cli.boxen (Cli.chalk Cli.yellow (lit "Thinking...")));
    Cli.ollama_chat (mkRequest (lit "qwen3:0.6b") (trim line))]
     ++ snd (Cli.for_await false chunks)
     ++ [Cli.console_log (Cli.plain [10%N]); Cli.rl_prompt],
   Returned).
Proof.
  intros Hline Hresp. unfold Cli.on_line.
  now rewrite Hline, Hresp.
Qed.

Lemma posted_postMessage (l : list HostMessage) :
  Panel.posted (map Panel.postMessage l) = l.
Proof.
  induction l as [|m l IH]; [reflexivity|].
  unfold Panel.posted in *. cbn [map flat_map app]. now rewrite IH.
Qed.

(** * Further properties of the code *)

(** ** The flag *)

Lemma agg_flag (started : bool) (chunks : list Chunk) :
  fst (Agg.for_await started chunks) =
  started || existsb Agg.has_answer chunks.
Proof.
  destruct started; [now rewrite agg_started | now rewrite agg_fresh].
Qed.

(** X1. [started] is only ever set: after the loop it is true exactly
    when it was true before or some chunk carried a non-empty answer,
    in each of the three front ends. *)
Theorem X1_started_is_only_set (started : bool) (chunks : list Chunk) :
  fst (Panel.for_await started chunks)
    = started || existsb Agg.has_answer chunks /\
  fst (Cli.for_await started chunks)
    = started || existsb Agg.has_answer chunks /\
  fst (Channel.for_await started chunks)
    = started || existsb Agg.has_answer chunks.
Proof.
  rewrite panel_render, cli_render, channel_render. cbn [fst].
  now rewrite agg_flag.
Qed.

(** ** What the terminal and the output channel show *)

Lemma cli_white_text_app (a b : list Cli.Effect) :
  cli_white_text (a ++ b) = cli_white_text a ++ cli_white_text b.
Proof. apply flat_map_app. Qed.

Lemma cli_gray_text_app (a b : list Cli.Effect) :
  cli_gray_text (a ++ b) = cli_gray_text a ++ cli_gray_text b.
Proof. apply flat_map_app. Qed.

Lemma cli_loop_texts (chunks : list Chunk) :
  cli_white_text (snd (Cli.for_await false chunks)) = Agg.answer_text chunks /\
  cli_gray_text (snd (Cli.for_await false chunks)) =
    List.concat (Agg.thoughts (Agg.until_answer chunks)).
Proof.
  destruct (loops_closed_form chunks) as [_ [-> _]].
  rewrite cli_white_text_app, cli_gray_text_app, answer_text_answers.
  assert (Hw : forall l,
             cli_white_text
               (map (fun t => Cli.stdout_write (Cli.chalk Cli.white t)) l)
             = List.concat l).
  { intro l. induction l as [|t l IH]; [reflexivity|].
    cbn [map List.concat]. unfold cli_white_text in *. cbn [flat_map].
    now rewrite IH. }
  assert (Hg : forall l,
             cli_gray_text
               (map (fun t => Cli.stdout_write (Cli.chalk Cli.gray t)) l)
             = List.concat l).
  { intro l. induction l as [|t l IH]; [reflexivity|].
    cbn [map List.concat]. unfold cli_gray_text in *. cbn [flat_map].
    now rewrite IH. }
  assert (Hwg : forall l,
             cli_white_text
               (map (fun t => Cli.stdout_write (Cli.chalk Cli.gray t)) l)
             = []).
  { intro l. induction l as [|t l IH]; [reflexivity|].
    cbn [map]. unfold cli_white_text in *. cbn [flat_map]. now rewrite IH. }
  assert (Hgw : forall l,
             cli_gray_text
               (map (fun t => Cli.stdout_write (Cli.chalk Cli.white t)) l)
             = []).
  { intro l. induction l as [|t l IH]; [reflexivity|].
    cbn [map]. unfold cli_gray_text in *. cbn [flat_map]. now rewrite IH. }
  rewrite Hwg, Hg.
  destruct (existsb Agg.has_answer chunks) eqn:Hsome.
  - change (?x :: map ?g ?l) with ([x] ++ map g l).
    rewrite cli_white_text_app, cli_gray_text_app, Hw, Hgw.
    cbn. now rewrite app_nil_r.
  - rewrite (answers_none _ Hsome). cbn. now rewrite app_nil_r.
Qed.

(** X3. On the terminal, for a line that is not blank, the text written
    in white is all the answer text of the chunks that arrived, in
    order, and the text written in gray is the reasoning of the chunks
    up to the first answer; this holds as well when the stream fails
    after those chunks. *)
Theorem X3_terminal_shows_whole_answer (ollama : Request -> Response)
    (line : str) (chunks : list Chunk) (fin : StreamEnd) :
  truthy_str (trim line) = true ->
  ollama (mkRequest (lit "qwen3:0.6b") (trim line)) = Stream chunks fin ->
  cli_white_text (fst (Cli.on_line ollama line)) = Agg.answer_text chunks /\
  cli_gray_text (fst (Cli.on_line ollama line)) =
    List.concat (Agg.thoughts (Agg.until_answer chunks)).
Proof.
  intros Hline Hresp.
  destruct (cli_loop_texts chunks) as [Hw Hg].
  unfold Cli.on_line. rewrite Hline, Hresp. cbn [negb].
  unfold Cli.stream_block.
  destruct fin; cbn [fst];
    rewrite ?cli_white_text_app, ?cli_gray_text_app, Hw, Hg;
    cbn; now rewrite ?app_nil_r.
Qed.

Lemma X3_terminal_shows_whole_answer_witness :
  let chunks := [reasoning_chunk "Let"; answer_chunk "Hi";
                 reasoning_chunk "late"; answer_chunk " there"] in
  let ollama := fun _ : Request => Stream chunks (Raised (lit "boom")) in
  truthy_str (trim (lit " hello ")) = true /\
  cli_white_text (fst (Cli.on_line ollama (lit " hello "))) = lit "Hi there" /\
  cli_gray_text (fst (Cli.on_line ollama (lit " hello "))) = lit "Let".
Proof.
  intros chunks ollama. split; [reflexivity|].
  exact (X3_terminal_shows_whole_answer ollama (lit " hello ") chunks
           (Raised (lit "boom")) eq_refl eq_refl).
Defined.

Lemma channel_text_app (shown : str) (a b : list Channel.Effect) :
  channel_text shown (a ++ b) = channel_text (channel_text shown a) b.
Proof. unfold channel_text. apply fold_left_app. Qed.

Lemma channel_text_appends (texts : list str) :
  forall shown,
    channel_text shown (map Channel.output_append texts) =
    shown ++ List.concat texts.
Proof.
  induction texts as [|t rest IH]; intro shown.
  - cbn. now rewrite app_nil_r.
  - cbn [map List.concat]. unfold channel_text in *. cbn [fold_left].
    rewrite IH. cbn [channel_apply]. now rewrite app_assoc.
Qed.

(** X4. Whatever the output channel showed before, after a round it
    shows that round alone: the line [Thinking...], the reasoning of the
    chunks up to the first answer and, when there is an answer, an empty
    line end, the two separator lines and all the answer text. *)
Theorem X4_channel_shows_last_round (ollama : Request -> Response)
    (userInput shown : str) (chunks : list Chunk) (fin : StreamEnd) :
  ollama (mkRequest (lit "qwen3:0.6b") userInput) = Stream chunks fin ->
  channel_text shown (fst (Channel.round ollama userInput)) =
  lit "Thinking..." ++ [10%N]
    ++ List.concat (Agg.thoughts (Agg.until_answer chunks))
    ++ (if existsb Agg.has_answer chunks
        then [10%N] ++ lit "Response:" ++ [10%N] ++ lit "========" ++ [10%N]
             ++ Agg.answer_text chunks
        else []).
Proof.
  intro Hresp. unfold Channel.round. rewrite Hresp. cbn [fst].
  rewrite channel_text_app.
  destruct (loops_closed_form chunks) as [_ [_ ->]].
  rewrite channel_text_app, channel_text_appends.
  change (channel_text shown
            [Channel.output_clear;
             Channel.output_appendLine (lit "Thinking...");
             Channel.output_show;
             Channel.ollama_chat (mkRequest (lit "qwen3:0.6b") userInput)])
    with (lit "Thinking..." ++ [10%N]).
  destruct (existsb Agg.has_answer chunks).
  - rewrite channel_text_app, channel_text_appends, answer_text_answers.
    unfold channel_text. cbn [fold_left channel_apply].
    now rewrite <- !app_assoc.
  - cbn [channel_text fold_left]. now rewrite app_nil_r, <- !app_assoc.
Qed.

Lemma X4_channel_shows_last_round_witness :
  let chunks := [reasoning_chunk "Let"; answer_chunk "Hi";
                 answer_chunk " there"] in
  let ollama := fun _ : Request => Stream chunks Exhausted in
  channel_text (lit "an earlier answer")
               (fst (Channel.round ollama (lit "hello"))) =
  lit "Thinking..." ++ [10%N] ++ lit "Let" ++ [10%N] ++ lit "Response:"
    ++ [10%N] ++ lit "========" ++ [10%N] ++ lit "Hi there".
Proof.
  intros chunks ollama.
  exact (X4_channel_shows_last_round ollama (lit "hello")
           (lit "an earlier answer") chunks Exhausted eq_refl).
Defined.

(** ** The command of the output-channel front end *)

(** The rounds of the inputs, each after its input box. *)
Lemma channel_start_all_return (ollama : Request -> Response)
    (inputs : list str) :
  (forall u, In u inputs -> snd (Channel.round ollama u) = Returned) ->
  Channel.start ollama inputs =
  (flat_map (fun u => Channel.showInputBox :: fst (Channel.round ollama u))
            inputs ++ [Channel.showInputBox],
   Returned).
Proof.
  induction inputs as [|u rest IH]; intro Hall; [reflexivity|].
  cbn [Channel.start flat_map].
  pose proof (Hall u (or_introl eq_refl)) as Hu.
  destruct (Channel.round ollama u) as [written outcome]. cbn [snd] in Hu.
  subst outcome. rewrite IH by (intros v Hv; apply Hall; now right).
  cbn [fst app]. now rewrite <- app_assoc.
Qed.

Lemma channel_requests_app (a b : list Channel.Effect) :
  channel_requests (a ++ b) = channel_requests a ++ channel_requests b.
Proof. apply flat_map_app. Qed.

Lemma channel_rounds_counts (ollama : Request -> Response)
    (inputs : list str) :
  let rounds :=
    flat_map (fun u => Channel.showInputBox :: fst (Channel.round ollama u))
             inputs in
  channel_requests rounds = map (mkRequest (lit "qwen3:0.6b")) inputs /\
  count is_showInputBox rounds = List.length inputs.
Proof.
  cbn zeta. induction inputs as [|u rest [IHr IHc]]; [split; reflexivity|].
  cbn [flat_map map List.length].
  destruct (channel_round_request ollama u) as [Hr Hc].
  rewrite channel_requests_app, count_app, IHr, IHc.
  change (Channel.showInputBox :: ?l) with ([Channel.showInputBox] ++ l).
  rewrite channel_requests_app, count_app, Hr, Hc.
  split; reflexivity.
Qed.

(** X5. When every round returns, the command asks once per answered
    input box, with the input as it was typed (the empty string
    included, nothing is trimmed), shows one more box, the cancelled
    one, and returns. *)
Theorem X5_channel_command_completes (ollama : Request -> Response)
    (inputs : list str) :
  (forall u, In u inputs -> snd (Channel.round ollama u) = Returned) ->
  snd (Channel.start ollama inputs) = Returned /\
  channel_requests (fst (Channel.start ollama inputs)) =
    map (mkRequest (lit "qwen3:0.6b")) inputs /\
  count is_showInputBox (fst (Channel.start ollama inputs)) =
    S (List.length inputs).
Proof.
  intro Hall. rewrite (channel_start_all_return ollama inputs Hall).
  cbn [fst snd]. split; [reflexivity|].
  destruct (channel_rounds_counts ollama inputs) as [Hr Hc].
  rewrite channel_requests_app, count_app, Hr, Hc.
  cbn. rewrite app_nil_r, Nat.add_comm. split; reflexivity.
Qed.

Lemma X5_channel_command_completes_witness :
  let ollama := fun r : Request =>
    Stream [mkChunk None (Some (req_content r))] Exhausted in
  let inputs := [lit "hello"; []; lit " spaced "] in
  channel_requests (fst (Channel.start ollama inputs)) =
    [mkRequest (lit "qwen3:0.6b") (lit "hello");
     mkRequest (lit "qwen3:0.6b") [];
     mkRequest (lit "qwen3:0.6b") (lit " spaced ")] /\
  count is_showInputBox (fst (Channel.start ollama inputs)) = 4.
Proof.
  intros ollama inputs.
  exact (proj2 (X5_channel_command_completes ollama inputs
                  (fun u _ => eq_refl))).
Defined.




(** ** What is sent to the model *)

Lemma trimStart_split (s : str) :
  exists lead,
    s = lead ++ trimStart s /\ forallb is_white_space lead = true.
Proof.
  induction s as [|c s [lead [Hs Hl]]]; [now exists []|].
  cbn [trimStart]. destruct (is_white_space c) eqn:Hc.
  - exists (c :: lead). cbn [app forallb]. rewrite Hc, Hl. now rewrite <- Hs.
  - now exists [].
Qed.

Lemma trimEnd_split (s : str) :
  exists trail,
    s = trimEnd s ++ trail /\ forallb is_white_space trail = true.
Proof.
  induction s as [|c s [trail [Hs Hl]]]; [now exists []|].
  cbn [trimEnd]. destruct (trimEnd s) as [|x t] eqn:Ht.
  - cbn [app] in Hs. subst s.
    destruct (is_white_space c) eqn:Hc.
    + exists (c :: trail). cbn [app forallb]. now rewrite Hc, Hl.
    + now exists trail.
  - exists trail. cbn [app]. now rewrite Hs at 1.
Qed.

Lemma trimStart_head (s : str) (c : N) (t : str) :
  trimStart s = c :: t -> is_white_space c = false.
Proof.
  induction s as [|x s IH]; [discriminate|].
  cbn [trimStart]. destruct (is_white_space x) eqn:Hx; [exact IH|].
  intro H. now injection H as <- _.
Qed.

Lemma trimEnd_head (s : str) (c : N) (t : str) :
  trimEnd s = c :: t -> exists s', s = c :: s'.
Proof.
  destruct s as [|x s]; [discriminate|].
  cbn [trimEnd]. destruct (trimEnd s), (is_white_space x); try discriminate;
    intro H; injection H as <- _; now exists s.
Qed.

Lemma trimEnd_last (s : str) (d : N) :
  trimEnd s <> [] -> is_white_space (last (trimEnd s) d) = false.
Proof.
  induction s as [|c s IH]; [intro H; now contradiction H|].
  cbn [trimEnd]. destruct (trimEnd s) as [|x t] eqn:Ht.
  - destruct (is_white_space c) eqn:Hc; [intro H; now contradiction H|].
    intros _. exact Hc.
  - intros _. change (last (c :: x :: t) d) with (last (x :: t) d).
    apply IH. discriminate.
Qed.

(** [trim] takes white space off both ends and nothing else. *)
Lemma trim_spec (s : str) :
  tidy (trim s) = true /\
  exists lead trail,
    s = lead ++ trim s ++ trail /\
    forallb is_white_space lead = true /\
    forallb is_white_space trail = true.
Proof.
  unfold trim. split.
  - unfold tidy. destruct (trimEnd (trimStart s)) as [|c t] eqn:Ht; [reflexivity|].
    destruct (trimEnd_head (trimStart s) c t Ht) as [s' Hs'].
    rewrite (trimStart_head s c s' Hs'). rewrite <- Ht.
    rewrite trimEnd_last by (rewrite Ht; discriminate). reflexivity.
  - destruct (trimStart_split s) as [lead [Hs Hl]].
    destruct (trimEnd_split (trimStart s)) as [trail [Hs' Ht]].
    exists lead, trail. split; [|now split].
    now rewrite <- Hs', <- Hs.
Qed.

Lemma cli_loop_has_no_request (chunks : list Chunk) :
  cli_requests (snd (Cli.for_await false chunks)) = [].
Proof.
  destruct (loops_closed_form chunks) as [_ [-> _]].
  assert (Hr : forall (c : Cli.Color) l,
             cli_requests
               (map (fun t => Cli.stdout_write (Cli.chalk c t)) l) = []).
  { intros c l. induction l as [|t l IH]; [reflexivity|].
    unfold cli_requests in *. cbn [map flat_map]. now rewrite IH. }
  unfold cli_requests in *. rewrite flat_map_app, Hr.
  destruct (existsb Agg.has_answer chunks); [|reflexivity].
  cbn [flat_map app]. apply Hr.
Qed.

Lemma cli_requests_on_line (ollama : Request -> Response) (line : str) :
  cli_requests (fst (Cli.on_line ollama line)) =
  if truthy_str (trim line)
  then [mkRequest (lit "qwen3:0.6b") (trim line)]
  else [].
Proof.
  unfold Cli.on_line.
  destruct (truthy_str (trim line)); [|reflexivity]. cbn [negb].
  destruct (ollama (mkRequest (lit "qwen3:0.6b") (trim line)))
    as [m|chunks fin]; [reflexivity|].
  unfold Cli.stream_block.
  pose proof (cli_loop_has_no_request chunks) as Hr.
  unfold cli_requests in *.
  destruct fin; cbn [fst]; rewrite !flat_map_app, Hr; reflexivity.
Qed.

(** X7. A request made by the terminal handler is the only one of its
    turn; it names the model [qwen3:0.6b] and carries the line with the
    white space at its two ends removed and nothing else changed, which
    is never the empty string. *)
Theorem X7_terminal_request_is_trimmed (ollama : Request -> Response)
    (line : str) (r : Request) :
  In r (cli_requests (fst (Cli.on_line ollama line))) ->
  cli_requests (fst (Cli.on_line ollama line)) = [r] /\
  req_model r = lit "qwen3:0.6b" /\
  req_content r = trim line /\
  req_content r <> [] /\
  tidy (req_content r) = true /\
  exists lead trail,
    line = lead ++ req_content r ++ trail /\
    forallb is_white_space lead = true /\
    forallb is_white_space trail = true.
Proof.
  rewrite cli_requests_on_line.
  destruct (truthy_str (trim line)) eqn:Hline; [|intros []].
  intros [<-|[]]. cbn [req_model req_content].
  destruct (trim_spec line) as [Htidy Hsplit].
  repeat split; trivial.
  intro H. now rewrite H in Hline.
Qed.

Lemma X7_terminal_request_is_trimmed_witness :
  let ollama := fun _ : Request => Stream [answer_chunk "Hi"] Exhausted in
  let line : str := [32; 9]%N ++ lit "hello  you" ++ [160; 32]%N in
  let r := mkRequest (lit "qwen3:0.6b") (lit "hello  you") in
  In r (cli_requests (fst (Cli.on_line ollama line))) /\
  cli_requests (fst (Cli.on_line ollama line)) = [r].
Proof.
  intros ollama line r.
  assert (Hin : In r (cli_requests (fst (Cli.on_line ollama line))))
    by (left; reflexivity).
  split; [exact Hin|].
  exact (proj1 (X7_terminal_request_is_trimmed ollama line r Hin)).
Defined.

Lemma panel_requests_posted (msgs : list HostMessage) :
  panel_requests (map Panel.postMessage msgs) = [].
Proof.
  induction msgs as [|m l IH]; [reflexivity|].
  unfold panel_requests in *. cbn [map flat_map]. now rewrite IH.
Qed.

Lemma or_else_truthy (a : option str) (b : str) :
  truthy_str b = true -> truthy_str (or_else a b) = true.
Proof.
  intro Hb. unfold or_else. destruct (truthy a) eqn:Ha; [|exact Hb].
  destruct a as [s|]; [exact Ha|discriminate].
Qed.

Lemma defaultModel_truthy (config : Ext.Settings) :
  truthy_str (Ext.defaultModel config) = true.
Proof. unfold Ext.defaultModel. now apply or_else_truthy. Qed.

Lemma panel_requests_submit (marked_parse : str -> str)
    (parse_fragment : str -> str -> View.Nodes) (defaultModel : str)
    (ollama : Request -> Response) (p : View.Page) :
  panel_requests
    (snd (View.submit marked_parse parse_fragment defaultModel ollama p)) =
  if truthy_str (trim (View.input_value p))
  then [mkRequest (or_else (Some (View.model_value p)) defaultModel)
                  (trim (View.input_value p))]
  else [].
Proof.
  unfold View.submit, View.click.
  destruct (truthy_str (trim (View.input_value p))); [|reflexivity].
  cbn [negb snd flat_map Panel.onDidReceiveMessage fst]. rewrite app_nil_r.
  change ([Panel.postMessage cmd_thinking; ?r] ++ ?l)
    with ([Panel.postMessage cmd_thinking; r] ++ l).
  unfold panel_requests. rewrite flat_map_app.
  fold (panel_requests
          (map Panel.postMessage
               (Panel.stream_block
                  (ollama (mkRequest
                             (or_else (Some (View.model_value p)) defaultModel)
                             (trim (View.input_value p))))))).
  now rewrite panel_requests_posted.
Qed.

(** X8. A request made in a turn of the panel is the only one of the
    turn; it carries the text of the input with the white space at its
    two ends removed, never the empty string, and names the model of the
    select, or the configured default when the select has no value; the
    model is never the empty string. *)
Theorem X8_panel_request (marked_parse : str -> str)
    (parse_fragment : str -> str -> View.Nodes) (config : Ext.Settings)
    (ollama : Request -> Response) (p : View.Page) (r : Request) :
  In r (panel_requests
          (snd (View.submit marked_parse parse_fragment (Ext.defaultModel config)
                      ollama p))) ->
  panel_requests
    (snd (View.submit marked_parse parse_fragment (Ext.defaultModel config)
                      ollama p)) = [r] /\
  req_content r = trim (View.input_value p) /\
  req_content r <> [] /\
  tidy (req_content r) = true /\
  req_model r = (if truthy_str (View.model_value p)
                 then View.model_value p
                 else Ext.defaultModel config) /\
  req_model r <> [].
Proof.
  rewrite panel_requests_submit.
  destruct (truthy_str (trim (View.input_value p))) eqn:Hin; [|intros []].
  intros [<-|[]]. cbn [req_model req_content].
  destruct (trim_spec (View.input_value p)) as [Htidy _].
  repeat split; trivial.
  - intro H. now rewrite H in Hin.
  - pose proof (or_else_truthy (Some (View.model_value p))
                  (Ext.defaultModel config) (defaultModel_truthy config)) as Hm.
    intro H. now rewrite H in Hm.
Qed.

Lemma X8_panel_request_witness :
  let config := Ext.mkSettings None None (Some []) in
  let ollama := fun _ : Request => Stream [answer_chunk "Hi"] Exhausted in
  let p := View.mkPage View.no_nodes ([32%N] ++ lit "hello" ++ [10%N]) [] in
  let r := mkRequest (lit "qwen3:0.6b") (lit "hello") in
  In r (panel_requests
          (snd (View.submit sample_marked sample_parse (Ext.defaultModel config)
                      ollama p))) /\
  panel_requests
    (snd (View.submit sample_marked sample_parse (Ext.defaultModel config)
                      ollama p)) = [r].
Proof.
  intros config ollama p r.
  assert (Hin : In r (panel_requests
                        (snd (View.submit sample_marked sample_parse
                                (Ext.defaultModel config) ollama p))))
    by (left; reflexivity).
  split; [exact Hin|].
  exact (proj1 (X8_panel_request sample_marked sample_parse config ollama p r
                  Hin)).
Defined.

(** ** The page *)


(** X9. A click right after a click sends nothing and changes nothing:
    the first one either found the input blank or emptied it. *)
Theorem X9_second_click_sends_nothing (marked_parse : str -> str)
    (parse_fragment : str -> str -> View.Nodes) (p : View.Page) :
  View.click marked_parse parse_fragment
             (fst (View.click marked_parse parse_fragment p)) =
  (fst (View.click marked_parse parse_fragment p), []).
Proof.
  unfold View.click at 2 3.
  destruct (truthy_str (trim (View.input_value p))) eqn:Hin; cbn [negb fst].
  - reflexivity.
  - unfold View.click. now rewrite Hin.
Qed.



Lemma last_snoc {A : Type} (l : list A) (a d : A) : last (l ++ [a]) d = a.
Proof.
  induction l as [|x l IH]; [reflexivity|].
  cbn [app last]. rewrite IH. now destruct l.
Qed.

(** ** Failure in the panel host, now and in the earlier version *)

(** X14. The panel host posts [error] once when the request is rejected
    or the stream raises, and never otherwise; when it does, [error] is
    its last message: nothing before it is an [error], nothing follows. *)
Theorem X14_error_is_posted_once_and_last (r : Response) :
  count is_error (Panel.stream_block r) =
    match r with
    | Stream _ Exhausted => 0
    | _ => 1
    end /\
  count is_error (removelast (Panel.stream_block r)) = 0 /\
  match r with
  | Rejected message | Stream _ (Raised message) =>
      last (Panel.stream_block r) cmd_thinking = cmd_error message
  | Stream _ Exhausted => True
  end.
Proof.
  destruct r as [m|chunks [|m]]; cbn [Panel.stream_block].
  - repeat split.
  - rewrite app_nil_r. pose proof (panel_posts_no_error_in_loop chunks) as H0.
    split; [exact H0|]. split; [|exact I].
    destruct (snd (Panel.for_await false chunks)) as [|x l] using rev_ind;
      [reflexivity|].
    rewrite removelast_last. rewrite count_app in H0. lia.
  - rewrite count_app, removelast_last, last_snoc,
            (panel_posts_no_error_in_loop chunks).
    repeat split.
Qed.

(** X15. The earlier host and the present one do the same up to a
    failure: the present one's effects are the earlier one's, followed
    by one [error] message exactly when the earlier one is left by the
    error; the present one always returns. *)
Theorem X15_earlier_host_differs_only_on_failure (defaultModel : str)
    (ollama : Request -> Response) (message : ViewMessage) :
  fst (Panel.onDidReceiveMessage defaultModel ollama message) =
    fst (PanelV0.onDidReceiveMessage defaultModel ollama message) ++
    match snd (PanelV0.onDidReceiveMessage defaultModel ollama message) with
    | Returned => []
    | Threw text => [Panel.postMessage (cmd_error text)]
    end /\
  snd (Panel.onDidReceiveMessage defaultModel ollama message) = Returned.
Proof.
  destruct message as [text model|]; [|split; reflexivity].
  cbn [Panel.onDidReceiveMessage PanelV0.onDidReceiveMessage fst snd].
  split; [|reflexivity].
  destruct (ollama (mkRequest (or_else model defaultModel) text))
    as [m|chunks [|m]]; cbn [Panel.stream_block fst snd map app].
  - reflexivity.
  - now rewrite !app_nil_r.
  - now rewrite map_app.
Qed.

(** ** The nonce *)

Lemma chars_are_alnum : forallb Ext.is_alnum Ext.chars = true.
Proof. vm_compute. reflexivity. Qed.

Lemma charAt_chars (k : nat) :
  forallb Ext.is_alnum (Ext.charAt Ext.chars k) = true /\
  List.length (Ext.charAt Ext.chars k) <= 1 /\
  (k < 62 -> List.length (Ext.charAt Ext.chars k) = 1).
Proof.
  unfold Ext.charAt.
  destruct (nth_error Ext.chars k) as [c|] eqn:Hk.
  - split; [|split; [cbn; lia|reflexivity]].
    cbn [forallb]. rewrite andb_true_r.
    apply nth_error_In in Hk.
    exact (proj1 (forallb_forall Ext.is_alnum Ext.chars) chars_are_alnum c Hk).
  - split; [reflexivity|]. split; [cbn; lia|].
    intro Hlt. apply nth_error_None in Hk.
    change (List.length Ext.chars) with 62 in Hk. lia.
Qed.

Lemma nonce_loop_spec (random_index : nat -> nat) (n : nat) :
  forall (i : nat) (text : str),
    forallb Ext.is_alnum text = true ->
    forallb Ext.is_alnum (Ext.nonce_loop n i random_index text) = true /\
    List.length (Ext.nonce_loop n i random_index text)
      <= List.length text + n /\
    ((forall j, i <= j < i + n -> random_index j < 62) ->
     List.length (Ext.nonce_loop n i random_index text)
       = List.length text + n).
Proof.
  induction n as [|n IH]; intros i text Htext.
  - cbn [Ext.nonce_loop]. split; [exact Htext|]. split; lia.
  - cbn [Ext.nonce_loop].
    destruct (charAt_chars (random_index i)) as [Ha [Hle Heq]].
    destruct (IH (S i) (text ++ Ext.charAt Ext.chars (random_index i)))
      as [IHa [IHle IHeq]].
    { now rewrite forallb_app, Htext, Ha. }
    rewrite length_app in IHle, IHeq.
    split; [exact IHa|]. split; [lia|].
    intro Hdraws. rewrite IHeq by (intros j Hj; apply Hdraws; lia).
    rewrite Heq by (apply Hdraws; lia). lia.
Qed.

(** X16. Whatever the random draws, the nonce consists of ASCII letters
    and digits only and has at most 16 units. *)
Theorem X16_nonce_is_alphanumeric (random_index : nat -> nat) :
  forallb Ext.is_alnum (Ext.getNonce random_index) = true /\
  List.length (Ext.getNonce random_index) <= 16.
Proof.
  destruct (nonce_loop_spec random_index 16 0 [] eq_refl) as [Ha [Hle _]].
  split; [exact Ha | exact Hle].
Qed.

(** X17. When every draw is an index of the alphabet (below 62, as the
    floor of a number below 1 times 62 is), the nonce has exactly 16
    units. *)
Theorem X17_nonce_has_16_units (random_index : nat -> nat) :
  (forall j, j < 16 -> random_index j < 62) ->
  List.length (Ext.getNonce random_index) = 16.
Proof.
  intro Hdraws.
  destruct (nonce_loop_spec random_index 16 0 [] eq_refl) as [_ [_ Heq]].
  apply Heq. intros j Hj. apply Hdraws. lia.
Qed.

Lemma X17_nonce_has_16_units_witness :
  let random_index := fun j : nat => (7 * j) mod 62 in
  Ext.getNonce random_index = lit "AHOVcjqx4BIPWdkr" /\
  List.length (Ext.getNonce random_index) = 16.
Proof.
  intro random_index. split; [reflexivity|].
  apply (X17_nonce_has_16_units random_index).
  intros j Hj. apply Nat.mod_upper_bound. discriminate.
Defined.
